(** * port-guardian: probe engine, liveness tracker and webhook notifier

    A shallow embedding of [checker/port_checker.py],
    [notifier/webhook_notifier.py] and the webhook part of
    [checker/config_loader.py], with the properties of the design
    document stated over it.

    Conventions of the embedding.
    - Python [str] values are [string]s (UTF-8 bytes). [upper] is
      [str.upper] with the full upper-case mapping of Unicode. [lower]
      changes the ASCII letters only, which is all a comparison with
      ["tcp"] or ["udp"] can observe: no other character has a lower case
      among t, c, p, u and d.
    - Python [int] is [Z]; [str(int)] is stdpp's [pretty].
    - A Python [float] is modelled by the rational it denotes ([Q]); the
      rounding of the floating-point operations themselves is not modelled.
    - The dict [previous_states] is a [gmap string bool].
    - What the operating system and the network do is an oracle handed to
      each function; logging is a side channel and is left out, except for
      the entry line of [_send_request], which marks a delivery attempt. *)

From Stdlib Require Import ZArith QArith Qround String Ascii List Lia.
From stdpp Require Import base gmap strings pretty list.

Local Open Scope Z_scope.
Local Open Scope string_scope.
Local Open Scope list_scope.

(** ** Python values shared by the modules *)

Module Py.

(** Case mapping of the ASCII letters. *)
Definition lower_ascii (c : ascii) : ascii :=
  let n := nat_of_ascii c in
  if ((65 <=? n)%nat && (n <=? 90)%nat)%bool then ascii_of_nat (n + 32) else c.

Definition upper_ascii (c : ascii) : ascii :=
  let n := nat_of_ascii c in
  if ((97 <=? n)%nat && (n <=? 122)%nat)%bool then ascii_of_nat (n - 32) else c.

Fixpoint map_string (f : ascii -> ascii) (s : string) : string :=
  match s with
  | EmptyString => EmptyString
  | String c rest => String (f c) (map_string f rest)
  end.

(** [s.lower()], on the ASCII letters of [s]. *)
Definition lower (s : string) : string := map_string lower_ascii s.

(** [str.upper] maps every character by the full upper-case mapping of
    Unicode (UnicodeData.txt and SpecialCasing.txt, version 14.0.0 as in
    CPython 3.11), one character at a time and whatever its neighbours.
    [upper_table] lists the characters above U+007F that have a mapping,
    each with the code points it becomes. *)
Definition upper_table : list (N * list N) := [
  (181, [924]); (223, [83; 83]); (224, [192]); (225, [193]); (226, [194]);
  (227, [195]); (228, [196]); (229, [197]); (230, [198]); (231, [199]);
  (232, [200]); (233, [201]); (234, [202]); (235, [203]); (236, [204]);
  (237, [205]); (238, [206]); (239, [207]); (240, [208]); (241, [209]);
  (242, [210]); (243, [211]); (244, [212]); (245, [213]); (246, [214]);
  (248, [216]); (249, [217]); (250, [218]); (251, [219]); (252, [220]);
  (253, [221]); (254, [222]); (255, [376]); (257, [256]); (259, [258]);
  (261, [260]); (263, [262]); (265, [264]); (267, [266]); (269, [268]);
  (271, [270]); (273, [272]); (275, [274]); (277, [276]); (279, [278]);
  (281, [280]); (283, [282]); (285, [284]); (287, [286]); (289, [288]);
  (291, [290]); (293, [292]); (295, [294]); (297, [296]); (299, [298]);
  (301, [300]); (303, [302]); (305, [73]); (307, [306]); (309, [308]);
  (311, [310]); (314, [313]); (316, [315]); (318, [317]); (320, [319]);
  (322, [321]); (324, [323]); (326, [325]); (328, [327]); (329, [700; 78]);
  (331, [330]); (333, [332]); (335, [334]); (337, [336]); (339, [338]);
  (341, [340]); (343, [342]); (345, [344]); (347, [346]); (349, [348]);
  (351, [350]); (353, [352]); (355, [354]); (357, [356]); (359, [358]);
  (361, [360]); (363, [362]); (365, [364]); (367, [366]); (369, [368]);
  (371, [370]); (373, [372]); (375, [374]); (378, [377]); (380, [379]);
  (382, [381]); (383, [83]); (384, [579]); (387, [386]); (389, [388]);
  (392, [391]); (396, [395]); (402, [401]); (405, [502]); (409, [408]);
  (410, [573]); (414, [544]); (417, [416]); (419, [418]); (421, [420]);
  (424, [423]); (429, [428]); (432, [431]); (436, [435]); (438, [437]);
  (441, [440]); (445, [444]); (447, [503]); (453, [452]); (454, [452]);
  (456, [455]); (457, [455]); (459, [458]); (460, [458]); (462, [461]);
  (464, [463]); (466, [465]); (468, [467]); (470, [469]); (472, [471]);
  (474, [473]); (476, [475]); (477, [398]); (479, [478]); (481, [480]);
  (483, [482]); (485, [484]); (487, [486]); (489, [488]); (491, [490]);
  (493, [492]); (495, [494]); (496, [74; 780]); (498, [497]); (499, [497]);
  (501, [500]); (505, [504]); (507, [506]); (509, [508]); (511, [510]);
  (513, [512]); (515, [514]); (517, [516]); (519, [518]); (521, [520]);
  (523, [522]); (525, [524]); (527, [526]); (529, [528]); (531, [530]);
  (533, [532]); (535, [534]); (537, [536]); (539, [538]); (541, [540]);
  (543, [542]); (547, [546]); (549, [548]); (551, [550]); (553, [552]);
  (555, [554]); (557, [556]); (559, [558]); (561, [560]); (563, [562]);
  (572, [571]); (575, [11390]); (576, [11391]); (578, [577]); (583, [582]);
  (585, [584]); (587, [586]); (589, [588]); (591, [590]); (592, [11375]);
  (593, [11373]); (594, [11376]); (595, [385]); (596, [390]); (598, [393]);
  (599, [394]); (601, [399]); (603, [400]); (604, [42923]); (608, [403]);
  (609, [42924]); (611, [404]); (613, [42893]); (614, [42922]); (616, [407]);
  (617, [406]); (618, [42926]); (619, [11362]); (620, [42925]); (623, [412]);
  (625, [11374]); (626, [413]); (629, [415]); (637, [11364]); (640, [422]);
  (642, [42949]); (643, [425]); (647, [42929]); (648, [430]); (649, [580]);
  (650, [433]); (651, [434]); (652, [581]); (658, [439]); (669, [42930]);
  (670, [42928]); (837, [921]); (881, [880]); (883, [882]); (887, [886]);
  (891, [1021]); (892, [1022]); (893, [1023]); (912, [921; 776; 769]);
  (940, [902]); (941, [904]); (942, [905]); (943, [906]);
  (944, [933; 776; 769]); (945, [913]); (946, [914]); (947, [915]);
  (948, [916]); (949, [917]); (950, [918]); (951, [919]); (952, [920]);
  (953, [921]); (954, [922]); (955, [923]); (956, [924]); (957, [925]);
  (958, [926]); (959, [927]); (960, [928]); (961, [929]); (962, [931]);
  (963, [931]); (964, [932]); (965, [933]); (966, [934]); (967, [935]);
  (968, [936]); (969, [937]); (970, [938]); (971, [939]); (972, [908]);
  (973, [910]); (974, [911]); (976, [914]); (977, [920]); (981, [934]);
  (982, [928]); (983, [975]); (985, [984]); (987, [986]); (989, [988]);
  (991, [990]); (993, [992]); (995, [994]); (997, [996]); (999, [998]);
  (1001, [1000]); (1003, [1002]); (1005, [1004]); (1007, [1006]);
  (1008, [922]); (1009, [929]); (1010, [1017]); (1011, [895]); (1013, [917]);
  (1016, [1015]); (1019, [1018]); (1072, [1040]); (1073, [1041]);
  (1074, [1042]); (1075, [1043]); (1076, [1044]); (1077, [1045]);
  (1078, [1046]); (1079, [1047]); (1080, [1048]); (1081, [1049]);
  (1082, [1050]); (1083, [1051]); (1084, [1052]); (1085, [1053]);
  (1086, [1054]); (1087, [1055]); (1088, [1056]); (1089, [1057]);
  (1090, [1058]); (1091, [1059]); (1092, [1060]); (1093, [1061]);
  (1094, [1062]); (1095, [1063]); (1096, [1064]); (1097, [1065]);
  (1098, [1066]); (1099, [1067]); (1100, [1068]); (1101, [1069]);
  (1102, [1070]); (1103, [1071]); (1104, [1024]); (1105, [1025]);
  (1106, [1026]); (1107, [1027]); (1108, [1028]); (1109, [1029]);
  (1110, [1030]); (1111, [1031]); (1112, [1032]); (1113, [1033]);
  (1114, [1034]); (1115, [1035]); (1116, [1036]); (1117, [1037]);
  (1118, [1038]); (1119, [1039]); (1121, [1120]); (1123, [1122]);
  (1125, [1124]); (1127, [1126]); (1129, [1128]); (1131, [1130]);
  (1133, [1132]); (1135, [1134]); (1137, [1136]); (1139, [1138]);
  (1141, [1140]); (1143, [1142]); (1145, [1144]); (1147, [1146]);
  (1149, [1148]); (1151, [1150]); (1153, [1152]); (1163, [1162]);
  (1165, [1164]); (1167, [1166]); (1169, [1168]); (1171, [1170]);
  (1173, [1172]); (1175, [1174]); (1177, [1176]); (1179, [1178]);
  (1181, [1180]); (1183, [1182]); (1185, [1184]); (1187, [1186]);
  (1189, [1188]); (1191, [1190]); (1193, [1192]); (1195, [1194]);
  (1197, [1196]); (1199, [1198]); (1201, [1200]); (1203, [1202]);
  (1205, [1204]); (1207, [1206]); (1209, [1208]); (1211, [1210]);
  (1213, [1212]); (1215, [1214]); (1218, [1217]); (1220, [1219]);
  (1222, [1221]); (1224, [1223]); (1226, [1225]); (1228, [1227]);
  (1230, [1229]); (1231, [1216]); (1233, [1232]); (1235, [1234]);
  (1237, [1236]); (1239, [1238]); (1241, [1240]); (1243, [1242]);
  (1245, [1244]); (1247, [1246]); (1249, [1248]); (1251, [1250]);
  (1253, [1252]); (1255, [1254]); (1257, [1256]); (1259, [1258]);
  (1261, [1260]); (1263, [1262]); (1265, [1264]); (1267, [1266]);
  (1269, [1268]); (1271, [1270]); (1273, [1272]); (1275, [1274]);
  (1277, [1276]); (1279, [1278]); (1281, [1280]); (1283, [1282]);
  (1285, [1284]); (1287, [1286]); (1289, [1288]); (1291, [1290]);
  (1293, [1292]); (1295, [1294]); (1297, [1296]); (1299, [1298]);
  (1301, [1300]); (1303, [1302]); (1305, [1304]); (1307, [1306]);
  (1309, [1308]); (1311, [1310]); (1313, [1312]); (1315, [1314]);
  (1317, [1316]); (1319, [1318]); (1321, [1320]); (1323, [1322]);
  (1325, [1324]); (1327, [1326]); (1377, [1329]); (1378, [1330]);
  (1379, [1331]); (1380, [1332]); (1381, [1333]); (1382, [1334]);
  (1383, [1335]); (1384, [1336]); (1385, [1337]); (1386, [1338]);
  (1387, [1339]); (1388, [1340]); (1389, [1341]); (1390, [1342]);
  (1391, [1343]); (1392, [1344]); (1393, [1345]); (1394, [1346]);
  (1395, [1347]); (1396, [1348]); (1397, [1349]); (1398, [1350]);
  (1399, [1351]); (1400, [1352]); (1401, [1353]); (1402, [1354]);
  (1403, [1355]); (1404, [1356]); (1405, [1357]); (1406, [1358]);
  (1407, [1359]); (1408, [1360]); (1409, [1361]); (1410, [1362]);
  (1411, [1363]); (1412, [1364]); (1413, [1365]); (1414, [1366]);
  (1415, [1333; 1362]); (4304, [7312]); (4305, [7313]); (4306, [7314]);
  (4307, [7315]); (4308, [7316]); (4309, [7317]); (4310, [7318]);
  (4311, [7319]); (4312, [7320]); (4313, [7321]); (4314, [7322]);
  (4315, [7323]); (4316, [7324]); (4317, [7325]); (4318, [7326]);
  (4319, [7327]); (4320, [7328]); (4321, [7329]); (4322, [7330]);
  (4323, [7331]); (4324, [7332]); (4325, [7333]); (4326, [7334]);
  (4327, [7335]); (4328, [7336]); (4329, [7337]); (4330, [7338]);
  (4331, [7339]); (4332, [7340]); (4333, [7341]); (4334, [7342]);
  (4335, [7343]); (4336, [7344]); (4337, [7345]); (4338, [7346]);
  (4339, [7347]); (4340, [7348]); (4341, [7349]); (4342, [7350]);
  (4343, [7351]); (4344, [7352]); (4345, [7353]); (4346, [7354]);
  (4349, [7357]); (4350, [7358]); (4351, [7359]); (5112, [5104]);
  (5113, [5105]); (5114, [5106]); (5115, [5107]); (5116, [5108]);
  (5117, [5109]); (7296, [1042]); (7297, [1044]); (7298, [1054]);
  (7299, [1057]); (7300, [1058]); (7301, [1058]); (7302, [1066]);
  (7303, [1122]); (7304, [42570]); (7545, [42877]); (7549, [11363]);
  (7566, [42950]); (7681, [7680]); (7683, [7682]); (7685, [7684]);
  (7687, [7686]); (7689, [7688]); (7691, [7690]); (7693, [7692]);
  (7695, [7694]); (7697, [7696]); (7699, [7698]); (7701, [7700]);
  (7703, [7702]); (7705, [7704]); (7707, [7706]); (7709, [7708]);
  (7711, [7710]); (7713, [7712]); (7715, [7714]); (7717, [7716]);
  (7719, [7718]); (7721, [7720]); (7723, [7722]); (7725, [7724]);
  (7727, [7726]); (7729, [7728]); (7731, [7730]); (7733, [7732]);
  (7735, [7734]); (7737, [7736]); (7739, [7738]); (7741, [7740]);
  (7743, [7742]); (7745, [7744]); (7747, [7746]); (7749, [7748]);
  (7751, [7750]); (7753, [7752]); (7755, [7754]); (7757, [7756]);
  (7759, [7758]); (7761, [7760]); (7763, [7762]); (7765, [7764]);
  (7767, [7766]); (7769, [7768]); (7771, [7770]); (7773, [7772]);
  (7775, [7774]); (7777, [7776]); (7779, [7778]); (7781, [7780]);
  (7783, [7782]); (7785, [7784]); (7787, [7786]); (7789, [7788]);
  (7791, [7790]); (7793, [7792]); (7795, [7794]); (7797, [7796]);
  (7799, [7798]); (7801, [7800]); (7803, [7802]); (7805, [7804]);
  (7807, [7806]); (7809, [7808]); (7811, [7810]); (7813, [7812]);
  (7815, [7814]); (7817, [7816]); (7819, [7818]); (7821, [7820]);
  (7823, [7822]); (7825, [7824]); (7827, [7826]); (7829, [7828]);
  (7830, [72; 817]); (7831, [84; 776]); (7832, [87; 778]); (7833, [89; 778]);
  (7834, [65; 702]); (7835, [7776]); (7841, [7840]); (7843, [7842]);
  (7845, [7844]); (7847, [7846]); (7849, [7848]); (7851, [7850]);
  (7853, [7852]); (7855, [7854]); (7857, [7856]); (7859, [7858]);
  (7861, [7860]); (7863, [7862]); (7865, [7864]); (7867, [7866]);
  (7869, [7868]); (7871, [7870]); (7873, [7872]); (7875, [7874]);
  (7877, [7876]); (7879, [7878]); (7881, [7880]); (7883, [7882]);
  (7885, [7884]); (7887, [7886]); (7889, [7888]); (7891, [7890]);
  (7893, [7892]); (7895, [7894]); (7897, [7896]); (7899, [7898]);
  (7901, [7900]); (7903, [7902]); (7905, [7904]); (7907, [7906]);
  (7909, [7908]); (7911, [7910]); (7913, [7912]); (7915, [7914]);
  (7917, [7916]); (7919, [7918]); (7921, [7920]); (7923, [7922]);
  (7925, [7924]); (7927, [7926]); (7929, [7928]); (7931, [7930]);
  (7933, [7932]); (7935, [7934]); (7936, [7944]); (7937, [7945]);
  (7938, [7946]); (7939, [7947]); (7940, [7948]); (7941, [7949]);
  (7942, [7950]); (7943, [7951]); (7952, [7960]); (7953, [7961]);
  (7954, [7962]); (7955, [7963]); (7956, [7964]); (7957, [7965]);
  (7968, [7976]); (7969, [7977]); (7970, [7978]); (7971, [7979]);
  (7972, [7980]); (7973, [7981]); (7974, [7982]); (7975, [7983]);
  (7984, [7992]); (7985, [7993]); (7986, [7994]); (7987, [7995]);
  (7988, [7996]); (7989, [7997]); (7990, [7998]); (7991, [7999]);
  (8000, [8008]); (8001, [8009]); (8002, [8010]); (8003, [8011]);
  (8004, [8012]); (8005, [8013]); (8016, [933; 787]); (8017, [8025]);
  (8018, [933; 787; 768]); (8019, [8027]); (8020, [933; 787; 769]);
  (8021, [8029]); (8022, [933; 787; 834]); (8023, [8031]); (8032, [8040]);
  (8033, [8041]); (8034, [8042]); (8035, [8043]); (8036, [8044]);
  (8037, [8045]); (8038, [8046]); (8039, [8047]); (8048, [8122]);
  (8049, [8123]); (8050, [8136]); (8051, [8137]); (8052, [8138]);
  (8053, [8139]); (8054, [8154]); (8055, [8155]); (8056, [8184]);
  (8057, [8185]); (8058, [8170]); (8059, [8171]); (8060, [8186]);
  (8061, [8187]); (8064, [7944; 921]); (8065, [7945; 921]);
  (8066, [7946; 921]); (8067, [7947; 921]); (8068, [7948; 921]);
  (8069, [7949; 921]); (8070, [7950; 921]); (8071, [7951; 921]);
  (8072, [7944; 921]); (8073, [7945; 921]); (8074, [7946; 921]);
  (8075, [7947; 921]); (8076, [7948; 921]); (8077, [7949; 921]);
  (8078, [7950; 921]); (8079, [7951; 921]); (8080, [7976; 921]);
  (8081, [7977; 921]); (8082, [7978; 921]); (8083, [7979; 921]);
  (8084, [7980; 921]); (8085, [7981; 921]); (8086, [7982; 921]);
  (8087, [7983; 921]); (8088, [7976; 921]); (8089, [7977; 921]);
  (8090, [7978; 921]); (8091, [7979; 921]); (8092, [7980; 921]);
  (8093, [7981; 921]); (8094, [7982; 921]); (8095, [7983; 921]);
  (8096, [8040; 921]); (8097, [8041; 921]); (8098, [8042; 921]);
  (8099, [8043; 921]); (8100, [8044; 921]); (8101, [8045; 921]);
  (8102, [8046; 921]); (8103, [8047; 921]); (8104, [8040; 921]);
  (8105, [8041; 921]); (8106, [8042; 921]); (8107, [8043; 921]);
  (8108, [8044; 921]); (8109, [8045; 921]); (8110, [8046; 921]);
  (8111, [8047; 921]); (8112, [8120]); (8113, [8121]); (8114, [8122; 921]);
  (8115, [913; 921]); (8116, [902; 921]); (8118, [913; 834]);
  (8119, [913; 834; 921]); (8124, [913; 921]); (8126, [921]);
  (8130, [8138; 921]); (8131, [919; 921]); (8132, [905; 921]);
  (8134, [919; 834]); (8135, [919; 834; 921]); (8140, [919; 921]);
  (8144, [8152]); (8145, [8153]); (8146, [921; 776; 768]);
  (8147, [921; 776; 769]); (8150, [921; 834]); (8151, [921; 776; 834]);
  (8160, [8168]); (8161, [8169]); (8162, [933; 776; 768]);
  (8163, [933; 776; 769]); (8164, [929; 787]); (8165, [8172]);
  (8166, [933; 834]); (8167, [933; 776; 834]); (8178, [8186; 921]);
  (8179, [937; 921]); (8180, [911; 921]); (8182, [937; 834]);
  (8183, [937; 834; 921]); (8188, [937; 921]); (8526, [8498]);
  (8560, [8544]); (8561, [8545]); (8562, [8546]); (8563, [8547]);
  (8564, [8548]); (8565, [8549]); (8566, [8550]); (8567, [8551]);
  (8568, [8552]); (8569, [8553]); (8570, [8554]); (8571, [8555]);
  (8572, [8556]); (8573, [8557]); (8574, [8558]); (8575, [8559]);
  (8580, [8579]); (9424, [9398]); (9425, [9399]); (9426, [9400]);
  (9427, [9401]); (9428, [9402]); (9429, [9403]); (9430, [9404]);
  (9431, [9405]); (9432, [9406]); (9433, [9407]); (9434, [9408]);
  (9435, [9409]); (9436, [9410]); (9437, [9411]); (9438, [9412]);
  (9439, [9413]); (9440, [9414]); (9441, [9415]); (9442, [9416]);
  (9443, [9417]); (9444, [9418]); (9445, [9419]); (9446, [9420]);
  (9447, [9421]); (9448, [9422]); (9449, [9423]); (11312, [11264]);
  (11313, [11265]); (11314, [11266]); (11315, [11267]); (11316, [11268]);
  (11317, [11269]); (11318, [11270]); (11319, [11271]); (11320, [11272]);
  (11321, [11273]); (11322, [11274]); (11323, [11275]); (11324, [11276]);
  (11325, [11277]); (11326, [11278]); (11327, [11279]); (11328, [11280]);
  (11329, [11281]); (11330, [11282]); (11331, [11283]); (11332, [11284]);
  (11333, [11285]); (11334, [11286]); (11335, [11287]); (11336, [11288]);
  (11337, [11289]); (11338, [11290]); (11339, [11291]); (11340, [11292]);
  (11341, [11293]); (11342, [11294]); (11343, [11295]); (11344, [11296]);
  (11345, [11297]); (11346, [11298]); (11347, [11299]); (11348, [11300]);
  (11349, [11301]); (11350, [11302]); (11351, [11303]); (11352, [11304]);
  (11353, [11305]); (11354, [11306]); (11355, [11307]); (11356, [11308]);
  (11357, [11309]); (11358, [11310]); (11359, [11311]); (11361, [11360]);
  (11365, [570]); (11366, [574]); (11368, [11367]); (11370, [11369]);
  (11372, [11371]); (11379, [11378]); (11382, [11381]); (11393, [11392]);
  (11395, [11394]); (11397, [11396]); (11399, [11398]); (11401, [11400]);
  (11403, [11402]); (11405, [11404]); (11407, [11406]); (11409, [11408]);
  (11411, [11410]); (11413, [11412]); (11415, [11414]); (11417, [11416]);
  (11419, [11418]); (11421, [11420]); (11423, [11422]); (11425, [11424]);
  (11427, [11426]); (11429, [11428]); (11431, [11430]); (11433, [11432]);
  (11435, [11434]); (11437, [11436]); (11439, [11438]); (11441, [11440]);
  (11443, [11442]); (11445, [11444]); (11447, [11446]); (11449, [11448]);
  (11451, [11450]); (11453, [11452]); (11455, [11454]); (11457, [11456]);
  (11459, [11458]); (11461, [11460]); (11463, [11462]); (11465, [11464]);
  (11467, [11466]); (11469, [11468]); (11471, [11470]); (11473, [11472]);
  (11475, [11474]); (11477, [11476]); (11479, [11478]); (11481, [11480]);
  (11483, [11482]); (11485, [11484]); (11487, [11486]); (11489, [11488]);
  (11491, [11490]); (11500, [11499]); (11502, [11501]); (11507, [11506]);
  (11520, [4256]); (11521, [4257]); (11522, [4258]); (11523, [4259]);
  (11524, [4260]); (11525, [4261]); (11526, [4262]); (11527, [4263]);
  (11528, [4264]); (11529, [4265]); (11530, [4266]); (11531, [4267]);
  (11532, [4268]); (11533, [4269]); (11534, [4270]); (11535, [4271]);
  (11536, [4272]); (11537, [4273]); (11538, [4274]); (11539, [4275]);
  (11540, [4276]); (11541, [4277]); (11542, [4278]); (11543, [4279]);
  (11544, [4280]); (11545, [4281]); (11546, [4282]); (11547, [4283]);
  (11548, [4284]); (11549, [4285]); (11550, [4286]); (11551, [4287]);
  (11552, [4288]); (11553, [4289]); (11554, [4290]); (11555, [4291]);
  (11556, [4292]); (11557, [4293]); (11559, [4295]); (11565, [4301]);
  (42561, [42560]); (42563, [42562]); (42565, [42564]); (42567, [42566]);
  (42569, [42568]); (42571, [42570]); (42573, [42572]); (42575, [42574]);
  (42577, [42576]); (42579, [42578]); (42581, [42580]); (42583, [42582]);
  (42585, [42584]); (42587, [42586]); (42589, [42588]); (42591, [42590]);
  (42593, [42592]); (42595, [42594]); (42597, [42596]); (42599, [42598]);
  (42601, [42600]); (42603, [42602]); (42605, [42604]); (42625, [42624]);
  (42627, [42626]); (42629, [42628]); (42631, [42630]); (42633, [42632]);
  (42635, [42634]); (42637, [42636]); (42639, [42638]); (42641, [42640]);
  (42643, [42642]); (42645, [42644]); (42647, [42646]); (42649, [42648]);
  (42651, [42650]); (42787, [42786]); (42789, [42788]); (42791, [42790]);
  (42793, [42792]); (42795, [42794]); (42797, [42796]); (42799, [42798]);
  (42803, [42802]); (42805, [42804]); (42807, [42806]); (42809, [42808]);
  (42811, [42810]); (42813, [42812]); (42815, [42814]); (42817, [42816]);
  (42819, [42818]); (42821, [42820]); (42823, [42822]); (42825, [42824]);
  (42827, [42826]); (42829, [42828]); (42831, [42830]); (42833, [42832]);
  (42835, [42834]); (42837, [42836]); (42839, [42838]); (42841, [42840]);
  (42843, [42842]); (42845, [42844]); (42847, [42846]); (42849, [42848]);
  (42851, [42850]); (42853, [42852]); (42855, [42854]); (42857, [42856]);
  (42859, [42858]); (42861, [42860]); (42863, [42862]); (42874, [42873]);
  (42876, [42875]); (42879, [42878]); (42881, [42880]); (42883, [42882]);
  (42885, [42884]); (42887, [42886]); (42892, [42891]); (42897, [42896]);
  (42899, [42898]); (42900, [42948]); (42903, [42902]); (42905, [42904]);
  (42907, [42906]); (42909, [42908]); (42911, [42910]); (42913, [42912]);
  (42915, [42914]); (42917, [42916]); (42919, [42918]); (42921, [42920]);
  (42933, [42932]); (42935, [42934]); (42937, [42936]); (42939, [42938]);
  (42941, [42940]); (42943, [42942]); (42945, [42944]); (42947, [42946]);
  (42952, [42951]); (42954, [42953]); (42961, [42960]); (42967, [42966]);
  (42969, [42968]); (42998, [42997]); (43859, [42931]); (43888, [5024]);
  (43889, [5025]); (43890, [5026]); (43891, [5027]); (43892, [5028]);
  (43893, [5029]); (43894, [5030]); (43895, [5031]); (43896, [5032]);
  (43897, [5033]); (43898, [5034]); (43899, [5035]); (43900, [5036]);
  (43901, [5037]); (43902, [5038]); (43903, [5039]); (43904, [5040]);
  (43905, [5041]); (43906, [5042]); (43907, [5043]); (43908, [5044]);
  (43909, [5045]); (43910, [5046]); (43911, [5047]); (43912, [5048]);
  (43913, [5049]); (43914, [5050]); (43915, [5051]); (43916, [5052]);
  (43917, [5053]); (43918, [5054]); (43919, [5055]); (43920, [5056]);
  (43921, [5057]); (43922, [5058]); (43923, [5059]); (43924, [5060]);
  (43925, [5061]); (43926, [5062]); (43927, [5063]); (43928, [5064]);
  (43929, [5065]); (43930, [5066]); (43931, [5067]); (43932, [5068]);
  (43933, [5069]); (43934, [5070]); (43935, [5071]); (43936, [5072]);
  (43937, [5073]); (43938, [5074]); (43939, [5075]); (43940, [5076]);
  (43941, [5077]); (43942, [5078]); (43943, [5079]); (43944, [5080]);
  (43945, [5081]); (43946, [5082]); (43947, [5083]); (43948, [5084]);
  (43949, [5085]); (43950, [5086]); (43951, [5087]); (43952, [5088]);
  (43953, [5089]); (43954, [5090]); (43955, [5091]); (43956, [5092]);
  (43957, [5093]); (43958, [5094]); (43959, [5095]); (43960, [5096]);
  (43961, [5097]); (43962, [5098]); (43963, [5099]); (43964, [5100]);
  (43965, [5101]); (43966, [5102]); (43967, [5103]); (64256, [70; 70]);
  (64257, [70; 73]); (64258, [70; 76]); (64259, [70; 70; 73]);
  (64260, [70; 70; 76]); (64261, [83; 84]); (64262, [83; 84]);
  (64275, [1348; 1350]); (64276, [1348; 1333]); (64277, [1348; 1339]);
  (64278, [1358; 1350]); (64279, [1348; 1341]); (65345, [65313]);
  (65346, [65314]); (65347, [65315]); (65348, [65316]); (65349, [65317]);
  (65350, [65318]); (65351, [65319]); (65352, [65320]); (65353, [65321]);
  (65354, [65322]); (65355, [65323]); (65356, [65324]); (65357, [65325]);
  (65358, [65326]); (65359, [65327]); (65360, [65328]); (65361, [65329]);
  (65362, [65330]); (65363, [65331]); (65364, [65332]); (65365, [65333]);
  (65366, [65334]); (65367, [65335]); (65368, [65336]); (65369, [65337]);
  (65370, [65338]); (66600, [66560]); (66601, [66561]); (66602, [66562]);
  (66603, [66563]); (66604, [66564]); (66605, [66565]); (66606, [66566]);
  (66607, [66567]); (66608, [66568]); (66609, [66569]); (66610, [66570]);
  (66611, [66571]); (66612, [66572]); (66613, [66573]); (66614, [66574]);
  (66615, [66575]); (66616, [66576]); (66617, [66577]); (66618, [66578]);
  (66619, [66579]); (66620, [66580]); (66621, [66581]); (66622, [66582]);
  (66623, [66583]); (66624, [66584]); (66625, [66585]); (66626, [66586]);
  (66627, [66587]); (66628, [66588]); (66629, [66589]); (66630, [66590]);
  (66631, [66591]); (66632, [66592]); (66633, [66593]); (66634, [66594]);
  (66635, [66595]); (66636, [66596]); (66637, [66597]); (66638, [66598]);
  (66639, [66599]); (66776, [66736]); (66777, [66737]); (66778, [66738]);
  (66779, [66739]); (66780, [66740]); (66781, [66741]); (66782, [66742]);
  (66783, [66743]); (66784, [66744]); (66785, [66745]); (66786, [66746]);
  (66787, [66747]); (66788, [66748]); (66789, [66749]); (66790, [66750]);
  (66791, [66751]); (66792, [66752]); (66793, [66753]); (66794, [66754]);
  (66795, [66755]); (66796, [66756]); (66797, [66757]); (66798, [66758]);
  (66799, [66759]); (66800, [66760]); (66801, [66761]); (66802, [66762]);
  (66803, [66763]); (66804, [66764]); (66805, [66765]); (66806, [66766]);
  (66807, [66767]); (66808, [66768]); (66809, [66769]); (66810, [66770]);
  (66811, [66771]); (66967, [66928]); (66968, [66929]); (66969, [66930]);
  (66970, [66931]); (66971, [66932]); (66972, [66933]); (66973, [66934]);
  (66974, [66935]); (66975, [66936]); (66976, [66937]); (66977, [66938]);
  (66979, [66940]); (66980, [66941]); (66981, [66942]); (66982, [66943]);
  (66983, [66944]); (66984, [66945]); (66985, [66946]); (66986, [66947]);
  (66987, [66948]); (66988, [66949]); (66989, [66950]); (66990, [66951]);
  (66991, [66952]); (66992, [66953]); (66993, [66954]); (66995, [66956]);
  (66996, [66957]); (66997, [66958]); (66998, [66959]); (66999, [66960]);
  (67000, [66961]); (67001, [66962]); (67003, [66964]); (67004, [66965]);
  (68800, [68736]); (68801, [68737]); (68802, [68738]); (68803, [68739]);
  (68804, [68740]); (68805, [68741]); (68806, [68742]); (68807, [68743]);
  (68808, [68744]); (68809, [68745]); (68810, [68746]); (68811, [68747]);
  (68812, [68748]); (68813, [68749]); (68814, [68750]); (68815, [68751]);
  (68816, [68752]); (68817, [68753]); (68818, [68754]); (68819, [68755]);
  (68820, [68756]); (68821, [68757]); (68822, [68758]); (68823, [68759]);
  (68824, [68760]); (68825, [68761]); (68826, [68762]); (68827, [68763]);
  (68828, [68764]); (68829, [68765]); (68830, [68766]); (68831, [68767]);
  (68832, [68768]); (68833, [68769]); (68834, [68770]); (68835, [68771]);
  (68836, [68772]); (68837, [68773]); (68838, [68774]); (68839, [68775]);
  (68840, [68776]); (68841, [68777]); (68842, [68778]); (68843, [68779]);
  (68844, [68780]); (68845, [68781]); (68846, [68782]); (68847, [68783]);
  (68848, [68784]); (68849, [68785]); (68850, [68786]); (71872, [71840]);
  (71873, [71841]); (71874, [71842]); (71875, [71843]); (71876, [71844]);
  (71877, [71845]); (71878, [71846]); (71879, [71847]); (71880, [71848]);
  (71881, [71849]); (71882, [71850]); (71883, [71851]); (71884, [71852]);
  (71885, [71853]); (71886, [71854]); (71887, [71855]); (71888, [71856]);
  (71889, [71857]); (71890, [71858]); (71891, [71859]); (71892, [71860]);
  (71893, [71861]); (71894, [71862]); (71895, [71863]); (71896, [71864]);
  (71897, [71865]); (71898, [71866]); (71899, [71867]); (71900, [71868]);
  (71901, [71869]); (71902, [71870]); (71903, [71871]); (93792, [93760]);
  (93793, [93761]); (93794, [93762]); (93795, [93763]); (93796, [93764]);
  (93797, [93765]); (93798, [93766]); (93799, [93767]); (93800, [93768]);
  (93801, [93769]); (93802, [93770]); (93803, [93771]); (93804, [93772]);
  (93805, [93773]); (93806, [93774]); (93807, [93775]); (93808, [93776]);
  (93809, [93777]); (93810, [93778]); (93811, [93779]); (93812, [93780]);
  (93813, [93781]); (93814, [93782]); (93815, [93783]); (93816, [93784]);
  (93817, [93785]); (93818, [93786]); (93819, [93787]); (93820, [93788]);
  (93821, [93789]); (93822, [93790]); (93823, [93791]); (125218, [125184]);
  (125219, [125185]); (125220, [125186]); (125221, [125187]);
  (125222, [125188]); (125223, [125189]); (125224, [125190]);
  (125225, [125191]); (125226, [125192]); (125227, [125193]);
  (125228, [125194]); (125229, [125195]); (125230, [125196]);
  (125231, [125197]); (125232, [125198]); (125233, [125199]);
  (125234, [125200]); (125235, [125201]); (125236, [125202]);
  (125237, [125203]); (125238, [125204]); (125239, [125205]);
  (125240, [125206]); (125241, [125207]); (125242, [125208]);
  (125243, [125209]); (125244, [125210]); (125245, [125211]);
  (125246, [125212]); (125247, [125213]); (125248, [125214]);
  (125249, [125215]); (125250, [125216]); (125251, [125217])
]%N.

Fixpoint upper_mapping (table : list (N * list N)) (cp : N)
    : option (list N) :=
  match table with
  | [] => None
  | (cp', ups) :: rest =>
      if (cp =? cp')%N then Some ups else upper_mapping rest cp
  end.

(** UTF-8: the bytes of a code point. *)
Definition utf8_encode (cp : N) : string :=
  let byte (n : N) : ascii := ascii_of_N n in
  if (cp <? 128)%N then String (byte cp) EmptyString
  else if (cp <? 2048)%N then
    String (byte (192 + cp / 64)%N)
      (String (byte (128 + cp mod 64)%N) EmptyString)
  else if (cp <? 65536)%N then
    String (byte (224 + cp / 4096)%N)
      (String (byte (128 + (cp / 64) mod 64)%N)
         (String (byte (128 + cp mod 64)%N) EmptyString))
  else
    String (byte (240 + cp / 262144)%N)
      (String (byte (128 + (cp / 4096) mod 64)%N)
         (String (byte (128 + (cp / 64) mod 64)%N)
            (String (byte (128 + cp mod 64)%N) EmptyString))).

Fixpoint utf8_encode_all (cps : list N) : string :=
  match cps with
  | [] => EmptyString
  | cp :: rest => String.append (utf8_encode cp) (utf8_encode_all rest)
  end.

(** A continuation byte of UTF-8, and its six bits. *)
Definition is_continuation (b : ascii) : bool :=
  ((128 <=? N_of_ascii b)%N && (N_of_ascii b <? 192)%N)%bool.
Definition continuation_bits (b : ascii) : N := (N_of_ascii b - 128)%N.

(** The upper case of the character whose bytes are [bytes] and whose code
    point is [cp]: the character itself when it has no mapping. *)
Definition upper_char (bytes : string) (cp : N) : string :=
  match upper_mapping upper_table cp with
  | Some ups => utf8_encode_all ups
  | None => bytes
  end.

(** [s.upper()], on the UTF-8 bytes of [s]; a byte that starts no
    character (there is none in the bytes of a [str]) is kept. *)
Fixpoint upper (s : string) : string :=
  match s with
  | EmptyString => EmptyString
  | String b0 r0 =>
      let n0 := N_of_ascii b0 in
      let keep := String b0 (upper r0) in
      if (n0 <? 128)%N then String (upper_ascii b0) (upper r0)
      else if (n0 <? 192)%N then keep
      else if (n0 <? 224)%N then
        match r0 with
        | String b1 r1 =>
            if is_continuation b1 then
              String.append
                (upper_char (String b0 (String b1 EmptyString))
                   ((n0 - 192) * 64 + continuation_bits b1)%N)
                (upper r1)
            else keep
        | _ => keep
        end
      else if (n0 <? 240)%N then
        match r0 with
        | String b1 (String b2 r2) =>
            if (is_continuation b1 && is_continuation b2)%bool then
              String.append
                (upper_char
                   (String b0 (String b1 (String b2 EmptyString)))
                   ((n0 - 224) * 4096 + continuation_bits b1 * 64
                    + continuation_bits b2)%N)
                (upper r2)
            else keep
        | _ => keep
        end
      else if (n0 <? 248)%N then
        match r0 with
        | String b1 (String b2 (String b3 r3)) =>
            if (is_continuation b1 && is_continuation b2
                && is_continuation b3)%bool then
              String.append
                (upper_char
                   (String b0
                      (String b1 (String b2 (String b3 EmptyString))))
                   ((n0 - 240) * 262144 + continuation_bits b1 * 4096
                    + continuation_bits b2 * 64 + continuation_bits b3)%N)
                (upper r3)
            else keep
        | _ => keep
        end
      else keep
  end.

(** [needle in haystack] on strings. *)
Fixpoint contains (needle haystack : string) : bool :=
  if String.prefix needle haystack then true
  else match haystack with
       | EmptyString => false
       | String _ rest => contains needle rest
       end.

(** Truth value of a float: [0.0] is false. *)
Definition float_truthy (x : Q) : bool := negb (Qeq_bool x 0).

(** Nearest integer, ties to the even one. *)
Definition round_half_even (x : Q) : Z :=
  let f := Qfloor x in
  match Qcompare (x - inject_Z f) (1 # 2) with
  | Lt => f
  | Gt => f + 1
  | Eq => if Z.even f then f else f + 1
  end.

(** [round(x, 2)]. *)
Definition round2 (x : Q) : Q :=
  Qred (inject_Z (round_half_even (x * inject_Z 100)) / inject_Z 100).

(** Exceptions, by the classes the handlers of the program tell apart. *)
Inductive exn : Type :=
| SocketTimeout (msg : string)   (* socket.timeout, a subclass of socket.error *)
| SocketError (msg : string)     (* any other socket.error (OSError) *)
| OtherError (msg : string).     (* an exception that is not a socket.error *)

Definition is_socket_error (e : exn) : bool :=
  match e with
  | SocketTimeout _ | SocketError _ => true
  | OtherError _ => false
  end.

Definition is_socket_timeout (e : exn) : bool :=
  match e with
  | SocketTimeout _ => true
  | _ => false
  end.

(** A computation that returns or raises. *)
Inductive result (A : Type) : Type :=
| Ok (a : A)
| Raise (e : exn).
Arguments Ok {A} a.
Arguments Raise {A} e.

Global Instance result_ret : MRet result := fun A a => Ok a.

Global Instance result_bind : MBind result := fun A B k m =>
  match m with
  | Ok a => k a
  | Raise e => Raise e
  end.

(** [range(a, b)]. *)
Definition range (a b : Z) : list Z := seqZ a (b - a).

(** A call that returns nothing of interest: [None] when it returns. *)
Definition call (o : option exn) : result unit :=
  match o with
  | None => Ok tt
  | Some e => Raise e
  end.

(** [try: body  except <class>: handler]. *)
Definition try_except {A} (body : result A) (catches : exn -> bool)
    (handler : exn -> result A) : result A :=
  match body with
  | Ok a => Ok a
  | Raise e => if catches e then handler e else Raise e
  end.

End Py.

Import Py.

(** ** checker/port_checker.py *)

(** One entry of the [servers] list of the configuration. *)
Record Server : Type := {
  name : string;
  host : string;
  port : Z;
  protocol : string
}.

(** What the socket layer does during one TCP probe. *)
Record tcp_io : Type := {
  tcp_socket : option exn;       (* socket.socket(...), settimeout *)
  tcp_connect_ex : result Z;     (* s.connect_ex((host, port)) *)
  tcp_elapsed : Q                (* time.time() - start_time *)
}.

(** What the socket layer does during one UDP probe. *)
Record udp_io : Type := {
  udp_socket : option exn;       (* socket.socket(...), settimeout *)
  udp_sendto : option exn;       (* s.sendto(b'', (host, port)) *)
  udp_recvfrom : option exn;     (* s.recvfrom(1024) *)
  udp_elapsed : Q                (* time.time() - start_time *)
}.

(** The network and the clock as one probe sees them. *)
Record network : Type := {
  connect : string -> Z -> tcp_io;
  datagram : string -> Z -> udp_io;
  clock : Q                      (* time.time() at the end of check_server *)
}.

Record PortChecker : Type := {
  timeout : Z;
  previous_states : gmap string bool
}.

(** [PortChecker.__init__]. *)
Definition PortChecker_init (timeout : Z) : PortChecker :=
  {| timeout := timeout; previous_states := ∅ |}.

(** The dict returned by [check_server]. The key [response_time] is always
    present and may hold [None]; [checked_at] and [error] are keys only one
    of the two return statements sets, [None] here meaning an absent key. *)
Record CheckResult : Type := {
  server : Server;
  is_alive : bool;
  response_time : option Q;
  status_changed : bool;
  checked_at : option Q;
  error : option string
}.

Definition check_tcp_port (self : PortChecker) (net : network)
    (host : string) (port : Z) : result (bool * option Q) :=
  let io := connect net host port in
  try_except
    (call (tcp_socket io) ;;
     code ← tcp_connect_ex io ;
     let response_time := tcp_elapsed io in
     Ok ((code =? 0)%Z, Some response_time))
    is_socket_error
    (fun _ => Ok (false, None)).

Definition check_udp_port (self : PortChecker) (net : network)
    (host : string) (port : Z) : result (bool * option Q) :=
  let io := datagram net host port in
  try_except
    (call (udp_socket io) ;;
     call (udp_sendto io) ;;
     try_except
       (call (udp_recvfrom io) ;;
        let response_time := udp_elapsed io in
        Ok (true, Some response_time))
       is_socket_timeout
       (fun _ =>
          let response_time := udp_elapsed io in
          Ok (true, Some response_time)))
    is_socket_error
    (fun _ => Ok (false, None)).

(** The key of an endpoint in [previous_states]. *)
Definition server_key (server : Server) : string :=
  host server +:+ ":" +:+ pretty (port server) +:+ ":" +:+ lower (protocol server).

(** The probe [check_server] dispatches to; [None] for a protocol that is
    neither tcp nor udp. *)
Definition probe (self : PortChecker) (net : network) (server : Server)
    : option (result (bool * option Q)) :=
  let protocol := lower (protocol server) in
  if String.eqb protocol "tcp" then
    Some (check_tcp_port self net (host server) (port server))
  else if String.eqb protocol "udp" then
    Some (check_udp_port self net (host server) (port server))
  else None.

Definition check_server (self : PortChecker) (net : network) (server : Server)
    : PortChecker * result CheckResult :=
  let protocol := lower (protocol server) in
  match probe self net server with
  | None =>
      (self, Ok {| server := server;
                   is_alive := false;
                   response_time := None;
                   status_changed := false;
                   checked_at := None;
                   error := Some ("不支持的协议: " +:+ protocol) |})
  | Some (Raise e) => (self, Raise e)
  | Some (Ok (is_alive, response_time)) =>
      let server_key := server_key server in
      let previous_state := previous_states self !! server_key in
      let status_changed :=
        match previous_state with
        | None => false
        | Some previous => negb (Bool.eqb previous is_alive)
        end in
      let self' := {| timeout := timeout self;
                      previous_states :=
                        <[server_key := is_alive]> (previous_states self) |} in
      (self', Ok {| server := server;
                    is_alive := is_alive;
                    response_time :=
                      match response_time with
                      | Some t =>
                          if float_truthy t
                          then Some (round2 (t * inject_Z 1000))
                          else None
                      | None => None
                      end;
                    status_changed := status_changed;
                    checked_at := Some (clock net);
                    error := None |})
  end.

(** The exception with which the probe of [server] leaves [check_server],
    if it does: one that the handlers of the probes let through. *)
Definition probe_fault (self : PortChecker) (net : network) (server : Server)
    : option exn :=
  match probe self net server with
  | Some (Raise e) => Some e
  | _ => None
  end.

(** The exception the socket layer raises during the probe of [server]
    and the handler around [recvfrom] does not absorb, if there is one:
    for tcp from [socket.socket], [settimeout] or [connect_ex]; for udp
    from those two, from [sendto], or from [recvfrom] unless it is a
    timeout. No socket call is made for another protocol. *)
Definition socket_layer_error (net : network) (server : Server)
    : option exn :=
  let protocol := lower (protocol server) in
  if String.eqb protocol "tcp" then
    let io := connect net (host server) (port server) in
    match tcp_socket io, tcp_connect_ex io with
    | Some e, _ => Some e
    | None, Raise e => Some e
    | None, Ok _ => None
    end
  else if String.eqb protocol "udp" then
    let io := datagram net (host server) (port server) in
    match udp_socket io, udp_sendto io, udp_recvfrom io with
    | Some e, _, _ => Some e
    | None, Some e, _ => Some e
    | None, None, Some e => if is_socket_timeout e then None else Some e
    | None, None, None => None
    end
  else None.

(** The world during one cycle: the network as the n-th probe finds it. *)
Definition world : Type := nat -> network.

Definition later (w : world) : world := fun n => w (S n).

Fixpoint check_all_loop (self : PortChecker) (w : world)
    (servers : list Server) (results : list CheckResult)
    : PortChecker * result (list CheckResult) :=
  match servers with
  | [] => (self, Ok results)
  | server :: rest =>
      match check_server self (w 0%nat) server with
      | (self', Ok result) =>
          check_all_loop self' (later w) rest (results ++ [result])
      | (self', Raise e) => (self', Raise e)
      end
  end.

Definition check_all_servers (self : PortChecker) (w : world)
    (servers : list Server) : PortChecker * result (list CheckResult) :=
  check_all_loop self w servers [].

(** ** checker/config_loader.py: the [webhook] section *)

(** The [webhook] dict of the configuration; an optional key is an
    [option]. *)
Record WebhookConfig : Type := {
  cfg_url : string;
  cfg_method : string;
  cfg_headers : option (gmap string string);
  cfg_retry_count : Z;
  cfg_retry_interval : Z;
  cfg_msg_type : option string
}.

(** The method check of [validate_config]; the [ValueError] it raises is
    not a socket error. *)
Definition validate_webhook_method (webhook : WebhookConfig) : result unit :=
  let webhook_method := upper (cfg_method webhook) in
  if bool_decide (webhook_method ∈ ["GET"; "POST"; "PUT"]) then Ok tt
  else Raise (OtherError ("Webhook方法不支持: " +:+ cfg_method webhook)).

(** ** notifier/webhook_notifier.py *)

(** Values a payload is made of. An f-string is kept as its pieces: the
    text is their concatenation, each substituted value rendered by
    [str()]. *)
Inductive atom : Type :=
| ANone
| AInt (z : Z)
| AFloat (q : Q)
| AStr (s : string).

Inductive piece : Type :=
| Lit (s : string)
| Sub (a : atom).

#[warnings="-register-all"] Inductive pyval : Type :=
| VAtom (a : atom)
| VText (pieces : list piece)
| VDict (items : list (string * pyval)).

Definition is_str (v : pyval) : bool :=
  match v with
  | VAtom (AStr _) | VText _ => true
  | _ => false
  end.

Definition keys (v : pyval) : list string :=
  match v with
  | VDict items => items.*1
  | _ => []
  end.

Fixpoint assoc (k : string) (items : list (string * pyval)) : option pyval :=
  match items with
  | [] => None
  | (k', v) :: rest => if String.eqb k k' then Some v else assoc k rest
  end.

(** [d.get(k)] on a dict value. *)
Definition dict_get (k : string) (v : pyval) : option pyval :=
  match v with
  | VDict items => assoc k items
  | _ => None
  end.

(** How [requests] is given the payload. *)
Inductive encoding : Type :=
| Json      (* json=payload *)
| Data      (* data=payload *)
| Params.   (* params=payload *)

Record http_request : Type := {
  req_method : string;
  req_url : string;
  req_headers : gmap string string;
  req_encoding : encoding;
  req_payload : pyval;
  req_timeout : Z
}.

(** What a call of [requests.post] or [requests.get] comes back with. *)
Inductive http_reply : Type :=
| Response (status_code : Z) (text : string)
| ConnectionError
| RequestTimeout
| RequestFailure (msg : string).   (* any other exception *)

(** What the notifier does to the outside, in order. *)
Inductive event : Type :=
| Attempt                        (* _send_request entered *)
| Request (r : http_request)     (* requests.post / requests.get *)
| Sleep (seconds : Z).           (* time.sleep *)

Definition is_attempt (e : event) : bool :=
  match e with Attempt => true | _ => false end.
Definition is_request (e : event) : bool :=
  match e with Request _ => true | _ => false end.
Definition is_sleep (e : event) : bool :=
  match e with Sleep _ => true | _ => false end.

Definition attempts (tr : list event) : nat := length (filter is_attempt tr).
Definition requests (tr : list event) : nat := length (filter is_request tr).
Definition sleeps (tr : list event) : list event := filter is_sleep tr.

(** The destination: its reply to a request made in the n-th attempt. *)
Definition destination : Type := nat -> http_request -> http_reply.

(** [time.time()] and [time.strftime("%Y-%m-%d %H:%M:%S")] while a message
    is formatted. *)
Record wallclock : Type := {
  time_time : Q;
  time_strftime : string
}.

Record WebhookNotifier : Type := {
  url : string;
  method : string;
  headers : gmap string string;
  retry_count : Z;
  retry_interval : Z;
  msg_type : string
}.

(** [WebhookNotifier.__init__]. *)
Definition WebhookNotifier_init (config : WebhookConfig) : WebhookNotifier :=
  let headers := default ∅ (cfg_headers config) in
  let headers :=
    if bool_decide (is_Some (headers !! "Content-Type")) then headers
    else <["Content-Type" := "application/json"]> headers in
  {| url := cfg_url config;
     method := upper (cfg_method config);
     headers := headers;
     retry_count := Z.max 0 (cfg_retry_count config);
     retry_interval := Z.max 1 (cfg_retry_interval config);
     msg_type := default "text" (cfg_msg_type config) |}.

(** [response.raise_for_status()] raises for 4xx and 5xx. *)
Definition raises_for_status (status_code : Z) : bool :=
  ((400 <=? status_code)%Z && (status_code <? 600)%Z)%bool.

(** Whether the reply lets [_send_request] reach [return True]. *)
Definition reply_ok (r : http_reply) : bool :=
  match r with
  | Response status_code _ => negb (raises_for_status status_code)
  | ConnectionError | RequestTimeout | RequestFailure _ => false
  end.

(** The call of [requests] that [_send_request] makes, if it makes one. *)
Definition request_of (self : WebhookNotifier) (payload : pyval)
    : option http_request :=
  if String.eqb (method self) "POST" then
    if bool_decide (headers self !! "Content-Type" = Some "application/json")
    then Some {| req_method := "POST"; req_url := url self;
                 req_headers := headers self; req_encoding := Json;
                 req_payload := payload; req_timeout := 15 |}
    else Some {| req_method := "POST"; req_url := url self;
                 req_headers := headers self; req_encoding := Data;
                 req_payload := payload; req_timeout := 15 |}
  else if String.eqb (method self) "GET" then
    Some {| req_method := "GET"; req_url := url self;
            req_headers := headers self; req_encoding := Params;
            req_payload := payload; req_timeout := 15 |}
  else None.

Definition _send_request (self : WebhookNotifier) (dest : destination)
    (payload : pyval) (tr : list event) : bool * list event :=
  let n := attempts tr in
  let tr := tr ++ [Attempt] in
  match request_of self payload with
  | Some req => (reply_ok (dest n req), tr ++ [Request req])
  | None => (false, tr)
  end.

(** The [for attempt in range(1, self.retry_count + 1)] loop. *)
Fixpoint retry_loop (self : WebhookNotifier) (dest : destination)
    (payload : pyval) (range : list Z) (tr : list event)
    : bool * list event :=
  match range with
  | [] => (false, tr)
  | attempt :: rest =>
      let '(sent, tr) := _send_request self dest payload tr in
      if sent then (true, tr)
      else
        let tr := if (attempt <? retry_count self)%Z
                  then tr ++ [Sleep (retry_interval self)] else tr in
        retry_loop self dest payload rest tr
  end.

Definition send_notification (self : WebhookNotifier) (dest : destination)
    (payload : pyval) (tr : list event) : bool * list event :=
  if (retry_count self =? 0)%Z then _send_request self dest payload tr
  else retry_loop self dest payload (range 1 (retry_count self + 1)) tr.

Definition nl : string := String (ascii_of_nat 10) EmptyString.

Definition is_feishu (url : string) : bool :=
  (contains "feishu.cn" url || contains "larksuite.com" url)%bool.

Definition is_dingtalk (url : string) : bool := contains "dingtalk.com" url.

(** A [.get(key, default)] on the outcome reads the key where the outcome
    has it: [response_time] always, [checked_at] unless the protocol was
    not supported. *)
Definition format_port_status_message (self : WebhookNotifier)
    (clk : wallclock) (check_result : CheckResult) : pyval :=
  let server := server check_result in
  let status := if is_alive check_result then "恢复正常" else "出现异常" in
  let status_emoji := if is_alive check_result then "✅" else "❌" in
  let up_down := if is_alive check_result then "UP" else "DOWN" in
  let response_time :=
    match response_time check_result with
    | Some t => AFloat t
    | None => ANone
    end in
  let checked_at :=
    match checked_at check_result with
    | Some t => AFloat t
    | None => AStr (time_strftime clk)
    end in
  if is_feishu (url self) then
    VDict [
      ("msg_type", VAtom (AStr (msg_type self)));
      ("content", VDict [
        ("text", VText [
           Sub (AStr status_emoji); Lit " 服务器端口"; Sub (AStr status); Lit nl;
           Lit "服务器名称: "; Sub (AStr (name server)); Lit nl;
           Lit "主机地址: "; Sub (AStr (host server)); Lit nl;
           Lit "端口: "; Sub (AInt (port server)); Lit nl;
           Lit "协议: "; Sub (AStr (protocol server)); Lit nl;
           Lit "状态: "; Sub (AStr up_down); Lit nl;
           Lit "响应时间: "; Sub response_time; Lit "ms"; Lit nl;
           Lit "检查时间: "; Sub checked_at])])]
  else if is_dingtalk (url self) then
    VDict [
      ("msgtype", VAtom (AStr "text"));
      ("text", VDict [
        ("content", VText [
           Sub (AStr status_emoji); Lit " 服务器端口"; Sub (AStr status); Lit nl;
           Lit "服务器名称: "; Sub (AStr (name server)); Lit nl;
           Lit "主机地址: "; Sub (AStr (host server)); Lit nl;
           Lit "端口: "; Sub (AInt (port server)); Lit nl;
           Lit "协议: "; Sub (AStr (protocol server)); Lit nl;
           Lit "状态: "; Sub (AStr up_down); Lit nl;
           Lit "响应时间: "; Sub response_time; Lit "ms"])])]
  else
    VDict [
      ("msg_type", VAtom (AStr (msg_type self)));
      ("title", VText [Sub (AStr status_emoji); Lit " 服务器端口";
                       Sub (AStr status)]);
      ("server_name", VAtom (AStr (name server)));
      ("host", VAtom (AStr (host server)));
      ("port", VAtom (AInt (port server)));
      ("protocol", VAtom (AStr (protocol server)));
      ("status", VAtom (AStr up_down));
      ("response_time_ms", VAtom response_time);
      ("checked_at", VAtom checked_at);
      ("timestamp", VAtom (AFloat (time_time clk)))].

Definition notify_port_status_change (self : WebhookNotifier)
    (dest : destination) (clk : wallclock) (check_result : CheckResult)
    (tr : list event) : bool * list event :=
  if negb (status_changed check_result) then (true, tr)
  else
    let message := format_port_status_message self clk check_result in
    send_notification self dest message tr.

(** Whether the attempt numbered [n] (from 0) is a success: what
    [_send_request] returns when [n] attempts were made before it. *)
Definition attempt_succeeds (self : WebhookNotifier) (dest : destination)
    (payload : pyval) (n : nat) : bool :=
  match request_of self payload with
  | Some req => reply_ok (dest n req)
  | None => false
  end.

(** The events of one attempt. *)
Definition attempt_events (self : WebhookNotifier) (payload : pyval)
    : list event :=
  Attempt ::
  match request_of self payload with
  | Some req => [Request req]
  | None => []
  end.

(** The events of [made] attempts in a row with a sleep of
    [retry_interval] seconds between each two of them. *)
Fixpoint delivery_events (self : WebhookNotifier) (payload : pyval)
    (made : nat) : list event :=
  match made with
  | O => []
  | S O => attempt_events self payload
  | S made' =>
      attempt_events self payload ++
      Sleep (retry_interval self) :: delivery_events self payload made'
  end.

(** The keys of the generic payload. *)
Definition generic_keys : list string :=
  ["msg_type"; "title"; "server_name"; "host"; "port"; "protocol"; "status";
   "response_time_ms"; "checked_at"; "timestamp"].

(** ** checker/config_loader.py: [validate_config] and the getters

    The configuration is whatever [json.load] returned. *)

#[warnings="-register-all"] Inductive json : Type :=
| JNull
| JBool (b : bool)
| JInt (z : Z)
| JFloat (q : Q)
| JStr (s : string)
| JList (elements : list json)
| JDict (entries : list (string * json)).

(** The exceptions [validate_config] can end with: its own [ValueError]s,
    one constructor per [raise] statement, and the errors Python raises
    when a value is not of the type an operation needs. *)
Inductive config_error : Type :=
| MissingSection (section : string)
| ServersNotList
| ServersEmpty
| ServerMissingField (idx : Z) (field : string)
| PortNotInteger (idx : Z)
| PortInvalid (idx : Z) (port : Z)
| ProtocolUnsupported (idx : Z)
| WebhookMissingField (field : string)
| MethodUnsupported
| CheckIntervalInvalid
| TimeoutInvalid
| TypeError
| AttributeError
| KeyError (key : string).

Inductive checked (A : Type) : Type :=
| Valid (a : A)
| Invalid (e : config_error).
Arguments Valid {A} a.
Arguments Invalid {A} e.

Global Instance checked_ret : MRet checked := fun A a => Valid a.

Global Instance checked_bind : MBind checked := fun A B k m =>
  match m with
  | Valid a => k a
  | Invalid e => Invalid e
  end.

(** The value of a key in a dict. *)
Fixpoint entry (key : string) (entries : list (string * json)) : option json :=
  match entries with
  | [] => None
  | (k, v) :: rest => if String.eqb key k then Some v else entry key rest
  end.

(** [key in container], for a string [key]: a key of a dict, an element of
    a list, a substring of a string; other values are not iterable. *)
Definition py_in (key : string) (container : json) : checked bool :=
  match container with
  | JDict entries =>
      Valid (match entry key entries with Some _ => true | None => false end)
  | JList elements =>
      Valid (existsb (fun x => match x with
                               | JStr s => String.eqb s key
                               | _ => false
                               end) elements)
  | JStr s => Valid (contains key s)
  | JNull | JBool _ | JInt _ | JFloat _ => Invalid TypeError
  end.

(** [container[key]], for a string [key]. *)
Definition py_getitem (container : json) (key : string) : checked json :=
  match container with
  | JDict entries =>
      match entry key entries with
      | Some v => Valid v
      | None => Invalid (KeyError key)
      end
  | _ => Invalid TypeError
  end.

(** [isinstance(v, int)], with the integer when it holds: a bool is an
    int, [True] being 1 and [False] 0. *)
Definition as_int (v : json) : option Z :=
  match v with
  | JInt z => Some z
  | JBool b => Some (if b then 1 else 0)
  | _ => None
  end.

(** [v.lower()] and [v.upper()]: methods of strings only. *)
Definition str_method (f : string -> string) (v : json) : checked string :=
  match v with
  | JStr s => Valid (f s)
  | _ => Invalid AttributeError
  end.

(** [for field in fields: if field not in container: raise ...]. *)
Fixpoint require_fields (missing : string -> config_error)
    (fields : list string) (container : json) : checked unit :=
  match fields with
  | [] => Valid tt
  | field :: rest =>
      present ← py_in field container ;
      if negb present then Invalid (missing field)
      else require_fields missing rest container
  end.

(** The body of the loop over the servers. *)
Definition validate_server (idx : Z) (server : json) : checked unit :=
  require_fields (ServerMissingField idx)
    ["name"; "host"; "port"; "protocol"] server ;;
  port ← py_getitem server "port" ;
  match as_int port with
  | None => Invalid (PortNotInteger idx)
  | Some port =>
      if negb ((1 <=? port)%Z && (port <=? 65535)%Z)
      then Invalid (PortInvalid idx port)
      else
        raw ← py_getitem server "protocol" ;
        protocol ← str_method lower raw ;
        if negb (bool_decide (protocol ∈ ["tcp"; "udp"]))
        then Invalid (ProtocolUnsupported idx)
        else Valid tt
  end.

(** [for idx, server in enumerate(servers, idx): ...]. *)
Fixpoint validate_servers (idx : Z) (servers : list json) : checked unit :=
  match servers with
  | [] => Valid tt
  | server :: rest =>
      validate_server idx server ;;
      validate_servers (idx + 1) rest
  end.

(** [isinstance(v, int) and v > 0], as the last two checks need it. *)
Definition positive_int (v : json) : bool :=
  match as_int v with
  | Some n => negb (n <=? 0)%Z
  | None => false
  end.

Definition validate_config (config : json) : checked unit :=
  require_fields MissingSection
    ["check_interval"; "timeout"; "servers"; "webhook"] config ;;
  servers ← py_getitem config "servers" ;
  match servers with
  | JList servers =>
      if (length servers =? 0)%nat then Invalid ServersEmpty
      else
        validate_servers 1 servers ;;
        webhook ← py_getitem config "webhook" ;
        require_fields WebhookMissingField
          ["url"; "method"; "retry_count"; "retry_interval"] webhook ;;
        raw ← py_getitem webhook "method" ;
        webhook_method ← str_method upper raw ;
        if negb (bool_decide (webhook_method ∈ ["GET"; "POST"; "PUT"]))
        then Invalid MethodUnsupported
        else
          check_interval ← py_getitem config "check_interval" ;
          if negb (positive_int check_interval)
          then Invalid CheckIntervalInvalid
          else
            timeout ← py_getitem config "timeout" ;
            if negb (positive_int timeout) then Invalid TimeoutInvalid
            else Valid tt
  | _ => Invalid ServersNotList
  end.

(** [get_servers], [get_check_interval], [get_timeout] and
    [get_webhook_config] index the dict. *)
Definition get_servers (config : json) : checked json :=
  py_getitem config "servers".
Definition get_check_interval (config : json) : checked json :=
  py_getitem config "check_interval".
Definition get_timeout (config : json) : checked json :=
  py_getitem config "timeout".
Definition get_webhook_config (config : json) : checked json :=
  py_getitem config "webhook".

Definition log_levels : list string :=
  ["DEBUG"; "INFO"; "WARNING"; "ERROR"; "CRITICAL"].

(** [get_log_level]; [.get] is a method of dicts only. *)
Definition get_log_level (config : json) : checked string :=
  match config with
  | JDict entries =>
      log_level ←
        str_method upper (default (JStr "INFO") (entry "log_level" entries)) ;
      if negb (bool_decide (log_level ∈ log_levels)) then Valid "INFO"
      else Valid log_level
  | _ => Invalid AttributeError
  end.

(** The endpoint a server dict stands for when its fields have the types
    [check_server] works with: strings, and an int for the port. *)
Definition server_of_json (v : json) : option Server :=
  match v with
  | JDict entries =>
      match entry "name" entries, entry "host" entries,
            entry "port" entries, entry "protocol" entries with
      | Some (JStr n), Some (JStr h), Some (JInt p), Some (JStr pr) =>
          Some {| name := n; host := h; port := p; protocol := pr |}
      | _, _, _, _ => None
      end
  | _ => None
  end.

(** ** main.py: [run_check_task] *)

(** The clock while the n-th outcome of a cycle is handled. *)
Definition clocks : Type := nat -> wallclock.

(** [for result in results: if result['status_changed']: notify(...)];
    what [notify_port_status_change] returns is dropped. *)
Fixpoint notify_changes (webhook_notifier : WebhookNotifier)
    (dest : destination) (clks : clocks) (results : list CheckResult)
    (tr : list event) : list event :=
  match results with
  | [] => tr
  | result :: rest =>
      let tr :=
        if status_changed result
        then (notify_port_status_change webhook_notifier dest (clks 0%nat)
                result tr).2
        else tr in
      notify_changes webhook_notifier dest (fun n => clks (S n)) rest tr
  end.

Definition run_check_task (port_checker : PortChecker)
    (webhook_notifier : WebhookNotifier) (w : world) (dest : destination)
    (clks : clocks) (servers : list Server) (tr : list event)
    : PortChecker * result (list event) :=
  match check_all_servers port_checker w servers with
  | (port_checker, Ok results) =>
      (port_checker,
       Ok (notify_changes webhook_notifier dest clks results tr))
  | (port_checker, Raise e) => (port_checker, Raise e)
  end.

(** The configurations [validate_config] lets through, said directly. *)
Definition valid_server (server : json) : Prop :=
  exists fields port protocol,
    server = JDict fields /\
    is_Some (entry "name" fields) /\
    is_Some (entry "host" fields) /\
    entry "port" fields ≫= as_int = Some port /\
    1 <= port <= 65535 /\
    entry "protocol" fields = Some (JStr protocol) /\
    lower protocol ∈ ["tcp"; "udp"].

Definition well_formed (config : json) : Prop :=
  exists entries servers webhook method check_interval timeout,
    config = JDict entries /\
    entry "servers" entries = Some (JList servers) /\
    servers <> [] /\
    Forall valid_server servers /\
    entry "webhook" entries = Some (JDict webhook) /\
    is_Some (entry "url" webhook) /\
    entry "method" webhook = Some (JStr method) /\
    upper method ∈ ["GET"; "POST"; "PUT"] /\
    is_Some (entry "retry_count" webhook) /\
    is_Some (entry "retry_interval" webhook) /\
    entry "check_interval" entries ≫= as_int = Some check_interval /\
    0 < check_interval /\
    entry "timeout" entries ≫= as_int = Some timeout /\
    0 < timeout.

(** Whether the character occurs in the string. *)
Fixpoint occurs (c : ascii) (s : string) : bool :=
  match s with
  | EmptyString => false
  | String c' rest => if Ascii.eqb c c' then true else occurs c rest
  end.

(** ** Concrete endpoints, networks and destinations

    Used to run the definitions above on explicit inputs. *)

Module Examples.

Definition web : Server :=
  {| name := "web"; host := "10.0.0.1"; port := 80; protocol := "TCP" |}.

Definition dns : Server :=
  {| name := "dns"; host := "10.0.0.2"; port := 53; protocol := "udp" |}.

Definition ping : Server :=
  {| name := "gw"; host := "10.0.0.3"; port := 7; protocol := "icmp" |}.

(** Memory after [web] was seen alive once. *)
Definition seen_up : PortChecker :=
  {| timeout := 5; previous_states := {[ "10.0.0.1:80:tcp" := true ]} |}.

(** TCP connections are refused after one millisecond (connect_ex returns
    ECONNREFUSED, 111); UDP datagrams go out and nothing comes back. *)
Definition refusing : network :=
  {| connect := fun _ _ =>
       {| tcp_socket := None; tcp_connect_ex := Ok 111;
          tcp_elapsed := 1 # 1000 |};
     datagram := fun _ _ =>
       {| udp_socket := None; udp_sendto := None;
          udp_recvfrom := Some (SocketTimeout "timed out");
          udp_elapsed := 5 # 1 |};
     clock := 1700000000 # 1 |}.

(** Every TCP connection is established after two milliseconds. *)
Definition accepting : network :=
  {| connect := fun _ _ =>
       {| tcp_socket := None; tcp_connect_ex := Ok 0;
          tcp_elapsed := 2 # 1000 |};
     datagram := fun _ _ =>
       {| udp_socket := None; udp_sendto := None;
          udp_recvfrom := None; udp_elapsed := 2 # 1000 |};
     clock := 1700000060 # 1 |}.

(** Name resolution fails with a socket error (gaierror). *)
Definition unresolvable : network :=
  {| connect := fun _ _ =>
       {| tcp_socket := None;
          tcp_connect_ex := Raise (SocketError "Name or service not known");
          tcp_elapsed := 0 |};
     datagram := fun _ _ =>
       {| udp_socket := None;
          udp_sendto := Some (SocketError "Name or service not known");
          udp_recvfrom := None; udp_elapsed := 0 |};
     clock := 1700000000 # 1 |}.

(** The socket layer raises something that is not a socket error
    (a UnicodeError from the encoding of the host name). *)
Definition faulty : network :=
  {| connect := fun _ _ =>
       {| tcp_socket := None;
          tcp_connect_ex := Raise (OtherError "label empty or too long");
          tcp_elapsed := 0 |};
     datagram := fun _ _ =>
       {| udp_socket := None;
          udp_sendto := Some (OtherError "label empty or too long");
          udp_recvfrom := None; udp_elapsed := 0 |};
     clock := 1700000000 # 1 |}.

(** A cycle whose first probe meets [faulty], every later one [accepting]. *)
Definition fault_first : world :=
  fun n => match n with O => faulty | S _ => accepting end.

Definition generic_hook : WebhookConfig :=
  {| cfg_url := "https://hooks.example.com/notify";
     cfg_method := "post";
     cfg_headers := None;
     cfg_retry_count := 2;
     cfg_retry_interval := 1;
     cfg_msg_type := None |}.

Definition feishu_hook : WebhookConfig :=
  {| cfg_url := "https://open.feishu.cn/open-apis/bot/v2/hook/abc";
     cfg_method := "POST";
     cfg_headers := None;
     cfg_retry_count := 0;
     cfg_retry_interval := 1;
     cfg_msg_type := Some "text" |}.

Definition put_hook : WebhookConfig :=
  {| cfg_url := "https://hooks.example.com/notify";
     cfg_method := "PUT";
     cfg_headers := None;
     cfg_retry_count := 2;
     cfg_retry_interval := 1;
     cfg_msg_type := None |}.

(** Answers 500 to the first two attempts and 200 from the third on. *)
Definition third_time_lucky : destination :=
  fun n _ => if (n <? 2)%nat then Response 500 "busy" else Response 200 "ok".

Definition noon : wallclock :=
  {| time_time := 1700000001 # 1; time_strftime := "2023-11-14 12:00:01" |}.

(** The outcome of probing [web] a second time with nothing changed. *)
Definition steady : CheckResult :=
  {| server := web; is_alive := true; response_time := Some (2 # 1)%Q;
     status_changed := false; checked_at := Some (1700000060 # 1)%Q;
     error := None |}.

Definition alert : pyval := VDict [("status", VAtom (AStr "DOWN"))].

End Examples.

(** ** Concrete configurations, worlds and clocks *)

Module Samples.

Import Examples.

Definition web_json : json :=
  JDict [("name", JStr "web"); ("host", JStr "10.0.0.1");
         ("port", JInt 80); ("protocol", JStr "TCP")].

Definition sample_config : json :=
  JDict [("check_interval", JInt 60);
         ("timeout", JInt 5);
         ("servers", JList [web_json]);
         ("webhook",
          JDict [("url", JStr "https://hooks.example.com/notify");
                 ("method", JStr "post");
                 ("retry_count", JInt 2);
                 ("retry_interval", JInt 1)])].

(** The same resource as [web] under another name. *)
Definition web_alias : Server :=
  {| name := "frontend"; host := "10.0.0.1"; port := 80; protocol := "tcp" |}.

(** Every probe of the cycle finds [accepting], or [refusing]. *)
Definition calm : world := fun _ => accepting.
Definition stormy : world := fun _ => refusing.

(** The second probe of the cycle meets [faulty]. *)
Definition fault_second : world :=
  fun n => match n with 1%nat => faulty | _ => refusing end.

Definition every_noon : clocks := fun _ => noon.

(** Name resolution fails for the first probe of the cycle only. *)
Definition unresolvable_first : world :=
  fun n => match n with O => unresolvable | S _ => accepting end.

(** The outcome of checking [web], last seen alive, when connections are
    refused. *)
Definition web_down : CheckResult :=
  {| server := web; is_alive := false; response_time := Some (1 # 1)%Q;
     status_changed := true; checked_at := Some (1700000000 # 1)%Q;
     error := None |}.

(** The outcomes of a cycle, none if it raised. *)
Definition outcomes (r : PortChecker * result (list CheckResult))
    : list CheckResult :=
  match r.2 with
  | Ok results => results
  | Raise _ => []
  end.

End Samples.

(** * Properties *)

(** ** The liveness tracker *)

Section Tracker.

Context (self : PortChecker) (net : network) (server : Server).

Lemma probe_supported :
  lower (protocol server) = "tcp" \/ lower (protocol server) = "udp" ->
  is_Some (probe self net server).
Proof.
  unfold probe. intros [-> | ->]; simpl; eauto.
Qed.

Lemma probe_unsupported :
  lower (protocol server) <> "tcp" -> lower (protocol server) <> "udp" ->
  probe self net server = None.
Proof.
  unfold probe. intros Htcp Hudp.
  destruct (String.eqb_spec (lower (protocol server)) "tcp"); [done|].
  destruct (String.eqb_spec (lower (protocol server)) "udp"); done.
Qed.

(** The memory after [check_server], whatever the probe did. *)
Lemma check_server_memory :
  previous_states (check_server self net server).1 =
    match probe self net server with
    | Some (Ok (reading, _)) =>
        <[server_key server := reading]> (previous_states self)
    | _ => previous_states self
    end.
Proof.
  unfold check_server.
  destruct (probe self net server) as [[[reading latency] | e] |]; reflexivity.
Qed.

Lemma check_server_frame_any (key : string) :
  key <> server_key server ->
  previous_states (check_server self net server).1 !! key
  = previous_states self !! key.
Proof.
  intros Hne. rewrite check_server_memory.
  destruct (probe self net server) as [[[reading latency] | e] |]; try done.
  by rewrite lookup_insert_ne.
Qed.

End Tracker.

(** On a tcp or udp endpoint the probe either lets an exception through or
    returns a reading. *)
Lemma probe_returns_reading (self : PortChecker) (net : network)
    (server0 : Server) :
  lower (protocol server0) = "tcp" \/ lower (protocol server0) = "udp" ->
  probe_fault self net server0 = None ->
  exists reading latency,
    probe self net server0 = Some (Ok (reading, latency)).
Proof.
  intros Hproto. unfold probe_fault.
  destruct (probe_supported self net server0 Hproto) as [r Hr].
  rewrite Hr. destruct r as [[reading latency] | e]; [|discriminate].
  intros _. by exists reading, latency.
Qed.

(** The outcome of a check whose probe returned a reading. *)
Lemma check_server_reading (self : PortChecker) (net : network)
    (server0 : Server) (reading : bool) (latency : option Q) :
  probe self net server0 = Some (Ok (reading, latency)) ->
  exists out,
    check_server self net server0 =
      ({| timeout := timeout self;
          previous_states :=
            <[server_key server0 := reading]> (previous_states self) |},
       Ok out) /\
    is_alive out = reading /\
    status_changed out =
      match previous_states self !! server_key server0 with
      | None => false
      | Some previous => negb (Bool.eqb previous reading)
      end.
Proof.
  intros Hprobe. unfold check_server. rewrite Hprobe.
  eexists. split; [reflexivity|]. split; reflexivity.
Qed.

(** A checker fresh from [__init__] never reports a change. *)
Lemma first_check_reports_no_change (t : Z) (net : network)
    (server0 : Server) (out : CheckResult) :
  (check_server (PortChecker_init t) net server0).2 = Ok out ->
  status_changed out = false.
Proof.
  unfold check_server.
  destruct (probe (PortChecker_init t) net server0)
    as [[[reading latency] | e] |]; cbn; try discriminate;
    by intros [= <-].
Qed.

(** Two checks of one endpoint in a row: the second reports a change
    exactly when the two readings differ, and memory then holds the
    second reading. *)
Lemma second_check_compares_readings (self : PortChecker)
    (net1 net2 : network) (server0 : Server) (r1 r2 : bool)
    (l1 l2 : option Q) :
  probe self net1 server0 = Some (Ok (r1, l1)) ->
  probe self net2 server0 = Some (Ok (r2, l2)) ->
  let self1 := (check_server self net1 server0).1 in
  exists out2,
    (check_server self1 net2 server0).2 = Ok out2 /\
    status_changed out2 = negb (Bool.eqb r1 r2) /\
    previous_states (check_server self1 net2 server0).1
      !! server_key server0 = Some r2.
Proof.
  intros H1 H2.
  destruct (check_server_reading self net1 server0 r1 l1 H1)
    as (out1 & Hfirst & _).
  cbn zeta. rewrite Hfirst. cbn [fst].
  destruct (check_server_reading
              {| timeout := timeout self;
                 previous_states :=
                   <[server_key server0 := r1]> (previous_states self) |}
              net2 server0 r2 l2 H2) as (out2 & Hsecond & _ & Hchanged).
  rewrite Hsecond. cbn [fst snd previous_states] in *.
  exists out2. split; [done|]. split.
  - by rewrite Hchanged, lookup_insert_eq.
  - apply lookup_insert_eq.
Qed.

(** C1 as amended. For an endpoint whose protocol is tcp or udp, every
    evaluation that returns an outcome has as its reading ([is_alive]) the
    one the probe returned; it reports [status_changed] exactly when memory
    already holds an entry for the endpoint's identity and that entry
    differs from the reading; with no entry (the first evaluation of the
    identity) it reports no change; and afterwards the entry of the
    identity holds the reading. *)
Theorem check_server_transition (self : PortChecker) (net : network)
    (server0 : Server) (out : CheckResult) :
  lower (protocol server0) = "tcp" \/ lower (protocol server0) = "udp" ->
  (check_server self net server0).2 = Ok out ->
  (exists latency,
     probe self net server0 = Some (Ok (is_alive out, latency))) /\
  (status_changed out = true <->
     exists previous,
       previous_states self !! server_key server0 = Some previous /\
       previous <> is_alive out) /\
  (previous_states self !! server_key server0 = None ->
     status_changed out = false) /\
  previous_states (check_server self net server0).1 !! server_key server0
  = Some (is_alive out).
Proof.
  intros Hproto.
  destruct (probe_supported self net server0 Hproto) as [r Hprobe].
  unfold check_server. rewrite Hprobe.
  destruct r as [[reading latency] | e]; [|done].
  cbn. intros [= <-]. cbn.
  split; [by exists latency|]. split; [|split].
  - destruct (previous_states self !! server_key server0) as [previous|].
    + split.
      * intros Hneq. exists previous. split; [done|].
        by destruct previous, reading.
      * intros (p & [= <-] & Hneq). by destruct previous, reading.
    + split; [done|]. by intros (p & ? & _).
  - by intros ->.
  - apply lookup_insert_eq.
Qed.

(** C10. A call of [check_server] on a tcp or udp endpoint leaves every
    entry of [previous_states] under another identity as it was. *)
Theorem check_server_frame (self : PortChecker) (net : network)
    (server : Server) (key : string) :
  lower (protocol server) = "tcp" \/ lower (protocol server) = "udp" ->
  key <> server_key server ->
  previous_states (check_server self net server).1 !! key
  = previous_states self !! key.
Proof.
  intros _. apply check_server_frame_any.
Qed.

(** C7 as amended. For a protocol that is neither tcp nor udp,
    [check_server] probes nothing and returns at once: not alive, no
    response time, [status_changed] false and an error naming the
    protocol; [previous_states] is neither consulted nor changed. *)
Theorem check_server_unsupported (self : PortChecker) (net : network)
    (server : Server) :
  lower (protocol server) <> "tcp" ->
  lower (protocol server) <> "udp" ->
  check_server self net server =
    (self, Ok {| server := server;
                 is_alive := false;
                 response_time := None;
                 status_changed := false;
                 checked_at := None;
                 error := Some ("不支持的协议: " +:+ lower (protocol server)) |}).
Proof.
  intros Htcp Hudp. unfold check_server.
  by rewrite probe_unsupported.
Qed.

Import Examples.

Lemma check_server_transition_witness :
  (lower (protocol web) = "tcp" \/ lower (protocol web) = "udp") /\
  (check_server seen_up refusing web).2 = Ok Samples.web_down /\
  (exists latency,
     probe seen_up refusing web
     = Some (Ok (is_alive Samples.web_down, latency))) /\
  (status_changed Samples.web_down = true <->
     exists previous,
       previous_states seen_up !! server_key web = Some previous /\
       previous <> is_alive Samples.web_down) /\
  (previous_states seen_up !! server_key web = None ->
     status_changed Samples.web_down = false) /\
  previous_states (check_server seen_up refusing web).1 !! server_key web
  = Some (is_alive Samples.web_down).
Proof.
  split; [by left|]. split; [reflexivity|].
  apply (check_server_transition seen_up refusing web Samples.web_down);
    [by left | reflexivity].
Defined.

(** C1, as stated, fails for an endpoint whose protocol is neither tcp nor
    udp: the evaluation returns the reading not alive, and memory holds no
    entry for the identity afterwards, so the entry is not the reading. *)
Lemma check_server_transition_counterexample :
  exists out,
    (check_server seen_up refusing ping).2 = Ok out /\
    is_alive out = false /\
    previous_states (check_server seen_up refusing ping).1 !! server_key ping
    = None /\
    previous_states (check_server seen_up refusing ping).1 !! server_key ping
    <> Some (is_alive out).
Proof.
  eexists. split; [reflexivity|]. split; [reflexivity|].
  split; [reflexivity|]. vm_compute. discriminate.
Qed.

Lemma check_server_frame_witness :
  (lower (protocol web) = "tcp" \/ lower (protocol web) = "udp") /\
  "10.0.0.2:53:udp" <> server_key web /\
  previous_states (check_server seen_up refusing web).1 !! "10.0.0.2:53:udp"
  = previous_states seen_up !! "10.0.0.2:53:udp".
Proof.
  split; [left; reflexivity|].
  split; [discriminate|].
  apply (check_server_frame seen_up refusing web "10.0.0.2:53:udp").
  - left; reflexivity.
  - discriminate.
Defined.

Lemma check_server_unsupported_witness :
  lower (protocol ping) <> "tcp" /\
  lower (protocol ping) <> "udp" /\
  check_server seen_up refusing ping =
    (seen_up, Ok {| server := ping;
                    is_alive := false;
                    response_time := None;
                    status_changed := false;
                    checked_at := None;
                    error := Some ("不支持的协议: " +:+ lower (protocol ping)) |}).
Proof.
  split; [discriminate|]. split; [discriminate|].
  apply (check_server_unsupported seen_up refusing ping); discriminate.
Defined.

(** C7, as stated, fails: after [check_server] on an endpoint with protocol
    icmp the memory holds no entry for its identity (the claim has it
    updated to false), although the outcome is not alive and carries the
    error. *)
Lemma check_server_unsupported_counterexample :
  lower (protocol ping) <> "tcp" /\
  lower (protocol ping) <> "udp" /\
  (exists out,
     (check_server (PortChecker_init 5) refusing ping).2 = Ok out /\
     is_alive out = false /\
     error out = Some "不支持的协议: icmp") /\
  previous_states (check_server (PortChecker_init 5) refusing ping).1
    !! server_key ping <> Some false.
Proof.
  split; [discriminate|]. split; [discriminate|]. split.
  - eexists. split; [reflexivity|]. split; reflexivity.
  - vm_compute. discriminate.
Qed.

(** ** The probes *)

(** C3. A UDP probe whose datagram goes out without a socket error and
    whose read times out reports reachable, with the elapsed time, as one
    whose read returns does. A socket error raised while the socket is set
    up or the datagram is sent, or one other than a timeout raised by the
    read, makes the probe report unreachable, with no latency; and nothing
    else does. *)
Theorem check_udp_port_timeout_is_reachable (self : PortChecker)
    (net : network) (host : string) (port : Z) :
  let io := datagram net host port in
  let hard_error (e : exn) :=
    is_socket_error e = true /\
    (udp_socket io = Some e \/
     (udp_socket io = None /\ udp_sendto io = Some e) \/
     (udp_socket io = None /\ udp_sendto io = None /\
      udp_recvfrom io = Some e /\ is_socket_timeout e = false)) in
  (udp_socket io = None -> udp_sendto io = None ->
   (exists msg, udp_recvfrom io = Some (SocketTimeout msg)) ->
   check_udp_port self net host port = Ok (true, Some (udp_elapsed io))) /\
  (forall e,
     hard_error e -> check_udp_port self net host port = Ok (false, None)) /\
  (forall latency,
     check_udp_port self net host port = Ok (false, latency) ->
     exists e, hard_error e) /\
  (udp_socket io = None -> udp_sendto io = None -> udp_recvfrom io = None ->
   check_udp_port self net host port = Ok (true, Some (udp_elapsed io))).
Proof.
  unfold check_udp_port. cbn zeta.
  destruct (datagram net host port) as [sock send recv elapsed]. cbn.
  split; [|split; [|split]]; [| | | by intros -> -> ->].
  - intros -> -> [msg ->]. reflexivity.
  - intros e [Hsocket [-> | [(-> & ->) | (-> & -> & -> & Htimeout)]]]; cbn.
    + by rewrite Hsocket.
    + by rewrite Hsocket.
    + rewrite Htimeout. cbn. by rewrite Hsocket.
  - intros latency.
    destruct sock as [e|]; cbn.
    { destruct e; cbn; try discriminate; intros _; eexists;
        (split; [|left; reflexivity]); reflexivity. }
    destruct send as [e|]; cbn.
    { destruct e; cbn; try discriminate; intros _; eexists;
        (split; [|right; left; split; reflexivity]); reflexivity. }
    destruct recv as [e|]; cbn; [|discriminate].
    destruct e; cbn; try discriminate.
    intros _. eexists.
    split; [|right; right; repeat split; reflexivity]. reflexivity.
Qed.

Lemma check_udp_port_timeout_is_reachable_witness :
  (udp_socket (datagram refusing "10.0.0.2" 53) = None /\
   udp_sendto (datagram refusing "10.0.0.2" 53) = None /\
   (exists msg,
      udp_recvfrom (datagram refusing "10.0.0.2" 53)
      = Some (SocketTimeout msg)) /\
   check_udp_port seen_up refusing "10.0.0.2" 53
   = Ok (true, Some (5 # 1)%Q)) /\
  (is_socket_error (SocketError "Name or service not known") = true /\
   udp_socket (datagram unresolvable "10.0.0.2" 53) = None /\
   udp_sendto (datagram unresolvable "10.0.0.2" 53)
   = Some (SocketError "Name or service not known") /\
   check_udp_port seen_up unresolvable "10.0.0.2" 53 = Ok (false, None)).
Proof.
  split.
  - split; [reflexivity|]. split; [reflexivity|].
    split; [by eexists|].
    apply (proj1 (check_udp_port_timeout_is_reachable seen_up refusing
                    "10.0.0.2" 53)).
    + reflexivity.
    + reflexivity.
    + by eexists.
  - split; [reflexivity|]. split; [reflexivity|]. split; [reflexivity|].
    apply (proj1 (proj2 (check_udp_port_timeout_is_reachable seen_up
                           unresolvable "10.0.0.2" 53))
             (SocketError "Name or service not known")).
    split; [reflexivity|]. right. left. by split.
Defined.

(** How a TCP probe comes to report unreachable. *)
Lemma check_tcp_port_unreachable (self : PortChecker) (net : network)
    (host : string) (port : Z) (latency : option Q) :
  check_tcp_port self net host port = Ok (false, latency) ->
  let io := connect net host port in
  (exists code,
     tcp_socket io = None /\ tcp_connect_ex io = Ok code /\ code <> 0 /\
     latency = Some (tcp_elapsed io)) \/
  (latency = None /\
   exists e,
     is_socket_error e = true /\
     (tcp_socket io = Some e \/
      (tcp_socket io = None /\ tcp_connect_ex io = Raise e))).
Proof.
  unfold check_tcp_port. cbn zeta.
  destruct (connect net host port) as [sock conn elapsed]. cbn.
  destruct sock as [e|]; cbn.
  { destruct e; cbn; try discriminate; intros [= <-]; right;
      (split; [done|]); eexists;
      (split; [|left; reflexivity]); reflexivity. }
  destruct conn as [code|e]; cbn.
  - intros [= Hcode <-]. left. exists code.
    apply Z.eqb_neq in Hcode. repeat split; done.
  - destruct e; cbn; try discriminate; intros [= <-]; right;
      (split; [done|]); eexists;
      (split; [|right; split; reflexivity]); reflexivity.
Qed.

(** C5 as amended. Every TCP probe that fails reports unreachable: with
    the elapsed time as latency when [connect_ex] returned a non-zero code
    (refused, timed out, unreachable), with no latency when a socket error
    was raised (a failed name resolution, say); a probe reports
    unreachable in no other case, and it returns no error message. The
    outcome [check_server] builds from such a probe is not alive, has no
    error entry, and has no response time exactly when the latency is
    missing or zero. *)
Theorem check_tcp_port_failure (self : PortChecker) (net : network)
    (server0 : Server) :
  lower (protocol server0) = "tcp" ->
  let io := connect net (host server0) (port server0) in
  let probed := check_tcp_port self net (host server0) (port server0) in
  (forall code,
     tcp_socket io = None -> tcp_connect_ex io = Ok code -> code <> 0 ->
     probed = Ok (false, Some (tcp_elapsed io))) /\
  (forall e,
     is_socket_error e = true ->
     tcp_socket io = Some e \/
     (tcp_socket io = None /\ tcp_connect_ex io = Raise e) ->
     probed = Ok (false, None)) /\
  (forall latency,
     probed = Ok (false, latency) ->
     ((exists code,
         tcp_socket io = None /\ tcp_connect_ex io = Ok code /\ code <> 0 /\
         latency = Some (tcp_elapsed io)) \/
      (latency = None /\
       exists e,
         is_socket_error e = true /\
         (tcp_socket io = Some e \/
          (tcp_socket io = None /\ tcp_connect_ex io = Raise e)))) /\
     exists out,
       (check_server self net server0).2 = Ok out /\
       is_alive out = false /\
       error out = None /\
       (response_time out = None <->
          latency = None \/ exists t, latency = Some t /\ Qeq t 0)).
Proof.
  intros Hproto io probed. split; [|split].
  - intros code Hsocket Hconnect Hcode. subst probed io.
    unfold check_tcp_port. cbn zeta. rewrite Hsocket, Hconnect. cbn.
    apply Z.eqb_neq in Hcode. by rewrite Hcode.
  - intros e He Hraised. subst probed io.
    unfold check_tcp_port. cbn zeta.
    destruct Hraised as [-> | [-> ->]]; cbn; by rewrite He.
  - intros latency Hprobe. split.
    { exact (check_tcp_port_unreachable self net _ _ _ Hprobe). }
    subst probed. unfold check_server, probe. rewrite Hproto. cbn.
    rewrite Hprobe.
    eexists. split; [reflexivity|]. cbn.
    split; [reflexivity|]. split; [reflexivity|].
    destruct latency as [t|].
    + unfold float_truthy.
      destruct (Qeq_bool t 0) eqn:Hzero; cbn.
      * split; [|done]. intros _. right. exists t.
        split; [done|]. by apply Qeq_bool_iff.
      * split; [done|]. intros [? | (t' & [= <-] & Ht)]; [done|].
        apply Qeq_bool_iff in Ht. congruence.
    + split; [|done]. by left.
Qed.

Lemma check_tcp_port_failure_witness :
  lower (protocol web) = "tcp" /\
  (tcp_socket (connect refusing (host web) (port web)) = None /\
   tcp_connect_ex (connect refusing (host web) (port web)) = Ok 111 /\
   111 <> 0 /\
   check_tcp_port seen_up refusing (host web) (port web)
   = Ok (false, Some (tcp_elapsed (connect refusing (host web) (port web)))))
  /\
  (is_socket_error (SocketError "Name or service not known") = true /\
   tcp_connect_ex (connect unresolvable (host web) (port web))
   = Raise (SocketError "Name or service not known") /\
   check_tcp_port seen_up unresolvable (host web) (port web)
   = Ok (false, None)).
Proof.
  split; [reflexivity|]. split.
  - split; [reflexivity|]. split; [reflexivity|]. split; [discriminate|].
    apply (proj1 (check_tcp_port_failure seen_up refusing web eq_refl) 111);
      [reflexivity | reflexivity | discriminate].
  - split; [reflexivity|]. split; [reflexivity|].
    apply (proj1 (proj2 (check_tcp_port_failure seen_up unresolvable web
                           eq_refl))
             (SocketError "Name or service not known"));
      [reflexivity | right; by split].
Defined.

(** C5, as stated, fails: a refused connection makes the probe report
    unreachable together with a latency, and the outcome carries a
    response time and no error. *)
Lemma check_tcp_port_failure_counterexample :
  check_tcp_port seen_up refusing (host web) (port web)
  = Ok (false, Some (1 # 1000)%Q) /\
  exists out,
    (check_server seen_up refusing web).2 = Ok out /\
    is_alive out = false /\
    response_time out = Some (1 # 1)%Q /\
    error out = None.
Proof.
  split; [reflexivity|].
  eexists. split; [reflexivity|]. repeat split; reflexivity.
Qed.

(** ** The cycle *)

Lemma probe_fault_not_socket_error (self : PortChecker) (net : network)
    (server : Server) (e : exn) :
  probe_fault self net server = Some e -> is_socket_error e = false.
Proof.
  unfold probe_fault, probe, check_tcp_port, check_udp_port.
  destruct (String.eqb _ "tcp").
  - destruct (connect net _ _) as [[[]|] [|[]] ?]; cbn;
      intros H; try discriminate H; by injection H as <-.
  - destruct (String.eqb _ "udp"); [|done].
    destruct (datagram net _ _) as [[[]|] [[]|] [[]|] ?]; cbn;
      intros H; try discriminate H; by injection H as <-.
Qed.

Lemma check_server_returns (self : PortChecker) (net : network)
    (server0 : Server) :
  probe_fault self net server0 = None ->
  exists out,
    (check_server self net server0).2 = Ok out /\ server out = server0.
Proof.
  unfold probe_fault, check_server.
  destruct (probe self net server0) as [[[reading latency] | e] |];
    try discriminate; intros _; eexists; split; reflexivity.
Qed.

Lemma check_server_raises (self : PortChecker) (net : network)
    (server0 : Server) (e : exn) :
  probe_fault self net server0 = Some e ->
  check_server self net server0 = (self, Raise e).
Proof.
  unfold probe_fault, check_server.
  destruct (probe self net server0) as [[[reading latency] | e'] |];
    try discriminate.
  by intros [= ->].
Qed.

Lemma probe_fault_self (self self' : PortChecker) (net : network)
    (server0 : Server) :
  probe_fault self net server0 = probe_fault self' net server0.
Proof. reflexivity. Qed.

Lemma check_all_loop_returns (servers : list Server) :
  forall (self : PortChecker) (w : world) (acc : list CheckResult),
    (forall i server0,
       servers !! i = Some server0 -> probe_fault self (w i) server0 = None) ->
    exists results,
      (check_all_loop self w servers acc).2 = Ok (acc ++ results) /\
      map server results = servers.
Proof.
  induction servers as [|server0 rest IH]; intros self w acc Hfine; cbn.
  - exists []. by rewrite app_nil_r.
  - destruct (check_server_returns self (w 0%nat) server0) as (out & Hout & Hs).
    { by apply (Hfine 0%nat). }
    destruct (check_server self (w 0%nat) server0) as [self' r].
    cbn in Hout. subst r.
    destruct (IH self' (later w) (acc ++ [out])) as (results & Hres & Hmap).
    { intros i s Hi. rewrite (probe_fault_self self' self).
      by apply (Hfine (S i)). }
    exists (out :: results). rewrite Hres, <- app_assoc. cbn.
    by rewrite Hs, Hmap.
Qed.

Lemma check_all_loop_raises (servers : list Server) :
  forall (self : PortChecker) (w : world) (acc : list CheckResult)
         (i : nat) (server0 : Server) (e : exn),
    servers !! i = Some server0 ->
    probe_fault self (w i) server0 = Some e ->
    (forall j s, (j < i)%nat -> servers !! j = Some s ->
                 probe_fault self (w j) s = None) ->
    (check_all_loop self w servers acc).2 = Raise e.
Proof.
  induction servers as [|s0 rest IH]; intros self w acc i server0 e Hi He Hbefore.
  - done.
  - destruct i as [|i]; cbn.
    + injection Hi as ->. by rewrite (check_server_raises _ _ _ _ He).
    + destruct (check_server_returns self (w 0%nat) s0) as (out & Hout & _).
      { apply (Hbefore 0%nat); [lia | done]. }
      destruct (check_server self (w 0%nat) s0) as [self' r].
      cbn in Hout. subst r.
      apply (IH self' (later w) _ i server0 e).
      * done.
      * by rewrite (probe_fault_self self' self).
      * intros j s Hj Hs. rewrite (probe_fault_self self' self).
        apply (Hbefore (S j)); [lia | done].
Qed.

(** What the probe makes of an error of the socket layer. *)
Lemma socket_error_is_unreachable (self : PortChecker) (net : network)
    (server0 : Server) (e : exn) :
  socket_layer_error net server0 = Some e ->
  is_socket_error e = true ->
  probe self net server0 = Some (Ok (false, None)).
Proof.
  unfold socket_layer_error, probe, check_tcp_port, check_udp_port.
  destruct (String.eqb _ "tcp").
  - destruct (connect net _ _) as [[e1|] [code|e2] ?]; cbn;
      intros [= <-] He; by rewrite He.
  - destruct (String.eqb _ "udp"); [|done].
    destruct (datagram net _ _) as [[e1|] [e2|] [e3|] ?]; cbn;
      try (intros [= <-] He; by rewrite He); try done.
    destruct (is_socket_timeout e3) eqn:Htimeout; [done|].
    intros [= <-] He. cbn. by rewrite He.
Qed.

Lemma probe_fault_iff (self : PortChecker) (net : network)
    (server0 : Server) (e : exn) :
  probe_fault self net server0 = Some e <->
  socket_layer_error net server0 = Some e /\ is_socket_error e = false.
Proof.
  unfold probe_fault, socket_layer_error, probe, check_tcp_port,
    check_udp_port.
  destruct (String.eqb _ "tcp").
  - destruct (connect net _ _) as [[[]|] [code|[]] ?]; cbn;
      split; try (intros [= <-]; by split);
      try (intros [[= <-] ?]; done); try done; by intros [? ?].
  - destruct (String.eqb _ "udp"); [|split; [done | by intros [? ?]]].
    destruct (datagram net _ _) as [[[]|] [[]|] [[]|] ?]; cbn;
      split; try (intros [= <-]; by split);
      try (intros [[= <-] ?]; done); try done; by intros [? ?].
Qed.

(** Every outcome of a cycle that returns is the outcome of
    [check_server] on its endpoint, in some state of the checker. *)
Lemma check_all_loop_outcomes (servers : list Server) :
  forall (self self' : PortChecker) (w : world)
         (acc res : list CheckResult),
    check_all_loop self w servers acc = (self', Ok res) ->
    exists results,
      res = acc ++ results /\
      forall i s out,
        servers !! i = Some s -> results !! i = Some out ->
        exists self_i, (check_server self_i (w i) s).2 = Ok out.
Proof.
  induction servers as [|s0 rest IH]; intros self self' w acc res Hrun;
    cbn in Hrun.
  - injection Hrun as _ <-. exists []. rewrite app_nil_r.
    split; [done|]. by intros i s out.
  - destruct (check_server self (w 0%nat) s0) as [self1 [out0 | e]] eqn:Hfirst;
      [|done].
    destruct (IH _ _ _ _ _ Hrun) as (results & -> & Hall).
    exists (out0 :: results). rewrite <- app_assoc. split; [done|].
    intros [|i] s out Hs Hout.
    + injection Hs as <-. injection Hout as <-.
      exists self. by rewrite Hfirst.
    + exact (Hall i s out Hs Hout).
Qed.

(** C4 as amended. A cycle in which every exception the socket layer
    raises is a socket error returns one outcome per endpoint, in the
    order of the list; an endpoint whose probe met such an error gets an
    outcome like the others, not alive and without a response time. An
    exception of any other kind, raised during the probe of one endpoint,
    leaves [check_all_servers] as that exception: the cycle returns no
    outcomes. *)
Theorem check_all_servers_isolation (self : PortChecker) (w : world)
    (servers : list Server) :
  ((forall i s e,
      servers !! i = Some s -> socket_layer_error (w i) s = Some e ->
      is_socket_error e = true) ->
   exists results,
     (check_all_servers self w servers).2 = Ok results /\
     map server results = servers /\
     forall i s e out,
       servers !! i = Some s -> results !! i = Some out ->
       socket_layer_error (w i) s = Some e ->
       is_alive out = false /\ response_time out = None) /\
  (forall i s e,
     servers !! i = Some s ->
     socket_layer_error (w i) s = Some e -> is_socket_error e = false ->
     (forall j s' e', (j < i)%nat -> servers !! j = Some s' ->
                      socket_layer_error (w j) s' = Some e' ->
                      is_socket_error e' = true) ->
     (check_all_servers self w servers).2 = Raise e).
Proof.
  split.
  - intros Hfine.
    assert (forall i s, servers !! i = Some s ->
                        probe_fault self (w i) s = None) as Hnofault.
    { intros i s Hs. destruct (probe_fault self (w i) s) as [e|] eqn:He;
        [|done].
      apply probe_fault_iff in He as [Hraised Hother].
      rewrite (Hfine i s e Hs Hraised) in Hother. done. }
    destruct (check_all_loop_returns servers self w [] Hnofault)
      as (results & Hres & Hmap).
    exists results. split; [done|]. split; [done|].
    intros i s e out Hs Hout Hraised.
    unfold check_all_servers in Hres.
    destruct (check_all_loop self w servers []) as [self' r] eqn:Hrun.
    cbn in Hres. subst r.
    destruct (check_all_loop_outcomes _ _ _ _ _ _ Hrun)
      as (results' & [= ->] & Hall).
    destruct (Hall i s out Hs Hout) as [self_i Hcheck].
    pose proof (socket_error_is_unreachable self_i (w i) s e Hraised
                  (Hfine i s e Hs Hraised)) as Hprobe.
    unfold check_server in Hcheck. rewrite Hprobe in Hcheck.
    cbn in Hcheck. by injection Hcheck as <-.
  - intros i s e Hs Hraised Hother Hbefore.
    apply (check_all_loop_raises servers self w [] i s e); [done | |].
    + by apply probe_fault_iff.
    + intros j s' Hj Hs'.
      destruct (probe_fault self (w j) s') as [e'|] eqn:He'; [|done].
      apply probe_fault_iff in He' as [Hraised' Hother'].
      rewrite (Hbefore j s' e' Hj Hs' Hraised') in Hother'. done.
Qed.

Lemma check_all_servers_isolation_witness :
  (forall i s e,
     [web; dns] !! i = Some s ->
     socket_layer_error (Samples.unresolvable_first i) s = Some e ->
     is_socket_error e = true) /\
  socket_layer_error (Samples.unresolvable_first 0%nat) web
  = Some (SocketError "Name or service not known") /\
  exists results,
    (check_all_servers seen_up Samples.unresolvable_first [web; dns]).2
    = Ok results /\
    map server results = [web; dns] /\
    forall i s e out,
      [web; dns] !! i = Some s -> results !! i = Some out ->
      socket_layer_error (Samples.unresolvable_first i) s = Some e ->
      is_alive out = false /\ response_time out = None.
Proof.
  assert (forall i s e,
            [web; dns] !! i = Some s ->
            socket_layer_error (Samples.unresolvable_first i) s = Some e ->
            is_socket_error e = true) as Hfine.
  { intros [|[|i]] s e; cbn; intros [= <-]; cbn; by intros [= <-]. }
  split; [exact Hfine|]. split; [reflexivity|].
  exact (proj1 (check_all_servers_isolation seen_up
                  Samples.unresolvable_first [web; dns]) Hfine).
Defined.

(** C4, as stated, fails: when the probe of the first of two endpoints
    raises an exception that is not a socket error, the cycle raises it and
    yields no outcome for the second endpoint, whose own probe would have
    succeeded. *)
Lemma check_all_servers_isolation_counterexample :
  probe_fault seen_up (fault_first 0%nat) web
  = Some (OtherError "label empty or too long") /\
  probe_fault seen_up (fault_first 1%nat) dns = None /\
  (check_all_servers seen_up fault_first [web; dns]).2
  = Raise (OtherError "label empty or too long") /\
  ~ (exists results,
       (check_all_servers seen_up fault_first [web; dns]).2 = Ok results).
Proof.
  split; [reflexivity|]. split; [reflexivity|]. split; [reflexivity|].
  intros [results Hres]. discriminate Hres.
Qed.

(** ** Delivery *)

Section Delivery.

Context (self : WebhookNotifier) (dest : destination) (payload : pyval).

Lemma attempts_app (tr1 tr2 : list event) :
  attempts (tr1 ++ tr2) = (attempts tr1 + attempts tr2)%nat.
Proof. unfold attempts. by rewrite filter_app, length_app. Qed.

Lemma requests_app (tr1 tr2 : list event) :
  requests (tr1 ++ tr2) = (requests tr1 + requests tr2)%nat.
Proof. unfold requests. by rewrite filter_app, length_app. Qed.

Lemma attempts_attempt_events : attempts (attempt_events self payload) = 1%nat.
Proof. unfold attempt_events. by destruct (request_of self payload). Qed.

Lemma send_request_spec (tr : list event) :
  _send_request self dest payload tr =
    (attempt_succeeds self dest payload (attempts tr),
     tr ++ attempt_events self payload).
Proof.
  unfold _send_request, attempt_succeeds, attempt_events.
  destruct (request_of self payload) as [req|]; [|done].
  by rewrite <- app_assoc.
Qed.

Lemma delivery_events_succ (made : nat) :
  (1 <= made)%nat ->
  delivery_events self payload (S made) =
    attempt_events self payload ++
    Sleep (retry_interval self) :: delivery_events self payload made.
Proof. destruct made; [lia | done]. Qed.

Lemma attempts_delivery_events (made : nat) :
  attempts (delivery_events self payload made) = made.
Proof.
  induction made as [|[|made] IH]; [done | apply attempts_attempt_events |].
  rewrite delivery_events_succ by lia.
  rewrite attempts_app, attempts_attempt_events.
  change (attempts (Sleep (retry_interval self) :: ?l)) with (attempts l).
  by rewrite IH.
Qed.

Lemma sleeps_delivery_events (made : nat) :
  sleeps (delivery_events self payload made) =
    replicate (made - 1) (Sleep (retry_interval self)).
Proof.
  assert (sleeps (attempt_events self payload) = []) as Hnone.
  { unfold attempt_events. by destruct (request_of self payload). }
  induction made as [|[|made] IH]; [done | exact Hnone |].
  rewrite delivery_events_succ by lia.
  unfold sleeps in *. rewrite filter_app, Hnone, app_nil_l.
  rewrite filter_cons_True by done. rewrite IH.
  replace (S (S made) - 1)%nat with (S (S made - 1)) by lia.
  reflexivity.
Qed.

(** The loop over the attempts numbered [a] to [retry_count]. *)
Lemma retry_loop_spec (n : nat) :
  forall (a : Z) (tr : list event),
    a + Z.of_nat (S n) = retry_count self + 1 ->
    let ok k := attempt_succeeds self dest payload (attempts tr + k) in
    exists made,
      retry_loop self dest payload (seqZ a (Z.of_nat (S n))) tr =
        (ok (made - 1)%nat, tr ++ delivery_events self payload made) /\
      (1 <= made <= S n)%nat /\
      (forall k, (k < made - 1)%nat -> ok k = false) /\
      (ok (made - 1)%nat = false -> made = S n).
Proof.
  induction n as [|n IH]; intros a tr Ha ok.
  - exists 1%nat.
    replace (seqZ a (Z.of_nat 1)) with [a] by reflexivity.
    cbn [retry_loop delivery_events]. rewrite send_request_spec.
    subst ok. cbn beta.
    replace (attempts tr + (1 - 1))%nat with (attempts tr) by lia.
    destruct (attempt_succeeds self dest payload (attempts tr)) eqn:Hok.
    + repeat split; lia.
    + replace (a <? retry_count self)%Z with false by lia.
      repeat split; lia.
  - rewrite seqZ_cons by lia. cbn [retry_loop].
    rewrite send_request_spec.
    destruct (attempt_succeeds self dest payload (attempts tr)) eqn:Hok.
    + exists 1%nat. subst ok. cbn [delivery_events].
      replace (attempts tr + (1 - 1))%nat with (attempts tr) by lia.
      rewrite Hok. repeat split; try lia; try discriminate.
    + replace (a <? retry_count self)%Z with true by lia.
      replace (Z.pred (Z.of_nat (S (S n)))) with (Z.of_nat (S n)) by lia.
      destruct (IH (Z.succ a)
                  ((tr ++ attempt_events self payload)
                     ++ [Sleep (retry_interval self)]))
        as (made & Hloop & Hmade & Hfail & Hlast); [lia|].
      rewrite Hloop.
      assert (attempts ((tr ++ attempt_events self payload)
                          ++ [Sleep (retry_interval self)])
              = S (attempts tr)) as Hcount.
      { rewrite !attempts_app, attempts_attempt_events.
        change (attempts [Sleep (retry_interval self)]) with 0%nat. lia. }
      rewrite Hcount in *.
      exists (S made). subst ok. cbn beta.
      replace (attempts tr + (S made - 1))%nat
        with (S (attempts tr) + (made - 1))%nat by lia.
      rewrite delivery_events_succ by lia.
      split; [by rewrite <- !app_assoc|].
      split; [lia|]. split.
      * intros [|k] Hk.
        { by rewrite Nat.add_0_r. }
        replace (attempts tr + S k)%nat with (S (attempts tr) + k)%nat by lia.
        apply Hfail. lia.
      * intros Hno. specialize (Hlast Hno). lia.
Qed.

End Delivery.

(** What [send_notification] does, by the number of attempts it makes. *)
Lemma send_notification_attempts (self : WebhookNotifier)
    (dest : destination) (payload : pyval) (tr : list event) :
  0 <= retry_count self ->
  let total := Z.to_nat (Z.max 1 (retry_count self)) in
  let ok k := attempt_succeeds self dest payload (attempts tr + k) in
  exists made,
    send_notification self dest payload tr =
      (ok (made - 1)%nat, tr ++ delivery_events self payload made) /\
    (1 <= made <= total)%nat /\
    (forall k, (k < made - 1)%nat -> ok k = false) /\
    (ok (made - 1)%nat = false -> made = total).
Proof.
  intros Hrc total ok. unfold send_notification.
  destruct (Z.eqb_spec (retry_count self) 0) as [Hzero | Hpos].
  - exists 1%nat. rewrite send_request_spec. subst ok total. cbn beta.
    rewrite Hzero.
    replace (attempts tr + (1 - 1))%nat with (attempts tr) by lia.
    repeat split; lia.
  - unfold range.
    destruct (retry_loop_spec self dest payload
                (Z.to_nat (retry_count self) - 1) 1 tr)
      as (made & Hloop & Hmade & Hfail & Hlast); [lia|].
    replace (Z.of_nat (S (Z.to_nat (retry_count self) - 1)))
      with (retry_count self + 1 - 1) in Hloop by lia.
    exists made. subst total ok. cbn beta in *.
    repeat split; try done; try lia.
    intros Hno. specialize (Hlast Hno). lia.
Qed.

(** C2 as amended. With [retry_count >= 0], [send_notification] makes at
    most [max 1 retry_count] attempts: one when [retry_count] is 0 and
    [retry_count] of them otherwise. It sleeps [retry_interval] seconds
    between each two consecutive attempts and nowhere else, stops at the
    first attempt that succeeds, and returns true exactly when one of the
    attempts it may make succeeds. *)
Theorem send_notification_retry (self : WebhookNotifier) (dest : destination)
    (payload : pyval) (tr : list event) :
  0 <= retry_count self ->
  let total := Z.to_nat (Z.max 1 (retry_count self)) in
  let ok k := attempt_succeeds self dest payload (attempts tr + k) in
  exists made,
    send_notification self dest payload tr =
      (ok (made - 1)%nat, tr ++ delivery_events self payload made) /\
    (1 <= made <= total)%nat /\
    (forall k, (k < made - 1)%nat -> ok k = false) /\
    (ok (made - 1)%nat = false -> made = total) /\
    (ok (made - 1)%nat = true <-> exists k, (k < total)%nat /\ ok k = true) /\
    attempts (delivery_events self payload made) = made /\
    sleeps (delivery_events self payload made) =
      replicate (made - 1) (Sleep (retry_interval self)).
Proof.
  intros Hrc total ok.
  destruct (send_notification_attempts self dest payload tr Hrc)
    as (made & Hsend & Hmade & Hfail & Hlast).
  exists made. repeat split; try done; try lia.
  - intros Hyes. exists (made - 1)%nat. split; [lia | done].
  - intros (k & Hk & Hyes).
    destruct (ok (made - 1)%nat) eqn:Hend; [done|].
    specialize (Hlast Hend). unfold total in Hk.
    destruct (decide (k = made - 1)%nat) as [-> | Hne].
    + rewrite Hend in Hyes. discriminate.
    + unfold ok in Hyes. rewrite Hfail in Hyes by lia. discriminate.
  - apply attempts_delivery_events.
  - apply sleeps_delivery_events.
Qed.

Lemma send_notification_retry_witness :
  0 <= retry_count (WebhookNotifier_init generic_hook) /\
  exists made,
    send_notification (WebhookNotifier_init generic_hook) third_time_lucky
      alert [] =
      (attempt_succeeds (WebhookNotifier_init generic_hook) third_time_lucky
         alert (attempts [] + (made - 1)),
       [] ++ delivery_events (WebhookNotifier_init generic_hook) alert made).
Proof.
  split; [vm_compute; discriminate|].
  destruct (send_notification_retry (WebhookNotifier_init generic_hook)
              third_time_lucky alert [])
    as (made & Hsend & _); [vm_compute; discriminate|].
  exists made. exact Hsend.
Defined.

(** C2, as stated, fails: with [retry_count = 2] and a destination that
    fails twice and would succeed the third time, [send_notification]
    gives up after two attempts and returns false. *)
Lemma send_notification_retry_counterexample :
  let self := WebhookNotifier_init generic_hook in
  let outcome := send_notification self third_time_lucky alert [] in
  retry_count self = 2 /\
  attempt_succeeds self third_time_lucky alert 0 = false /\
  attempt_succeeds self third_time_lucky alert 1 = false /\
  attempt_succeeds self third_time_lucky alert 2 = true /\
  outcome.1 = false /\
  attempts outcome.2 = 2%nat /\
  sleeps outcome.2 = [Sleep 1].
Proof.
  repeat split; reflexivity.
Qed.

(** ** Requests *)

Lemma init_default_content_type (config : WebhookConfig) :
  headers (WebhookNotifier_init config) !! "Content-Type" =
    Some (default "application/json"
            (default ∅ (cfg_headers config) !! "Content-Type")).
Proof.
  unfold WebhookNotifier_init. cbn [headers].
  case_bool_decide as Hset.
  - destruct Hset as [v Hv]. by rewrite Hv.
  - rewrite lookup_insert_eq.
    destruct (default ∅ (cfg_headers config) !! "Content-Type") eqn:Hv;
      [|done].
    destruct Hset. by eexists.
Qed.

Lemma send_request_get_or_post (self : WebhookNotifier) (dest : destination)
    (payload : pyval) (tr : list event) :
  method self = "GET" \/ method self = "POST" ->
  exists req,
    (_send_request self dest payload tr).2 = tr ++ [Attempt; Request req] /\
    req_method req = method self /\
    req_url req = url self /\
    req_headers req = headers self /\
    req_payload req = payload.
Proof.
  unfold _send_request, request_of. intros [-> | ->]; cbn.
  - eexists. rewrite <- app_assoc. split; [reflexivity|]. done.
  - case_bool_decide; eexists; rewrite <- app_assoc;
      (split; [reflexivity|]); done.
Qed.

(** C6 at the method PUT. The configuration check accepts the method, and
    the notifier built from that configuration sends nothing: an attempt
    ends with false and no request made, and so does a whole delivery. *)
Theorem send_request_put_sends_nothing (dest : destination)
    (payload : pyval) (tr : list event) :
  let self := WebhookNotifier_init put_hook in
  validate_webhook_method put_hook = Ok tt /\
  method self = "PUT" /\
  _send_request self dest payload tr = (false, tr ++ [Attempt]) /\
  requests (_send_request self dest payload tr).2 = requests tr /\
  (send_notification self dest payload tr).1 = false /\
  requests (send_notification self dest payload tr).2 = requests tr.
Proof.
  cbn zeta.
  assert (_send_request (WebhookNotifier_init put_hook) dest payload tr
          = (false, tr ++ [Attempt])) as Hsend by reflexivity.
  split; [reflexivity|]. split; [reflexivity|]. split; [exact Hsend|].
  split.
  { rewrite Hsend. cbn [snd]. rewrite requests_app.
    change (requests [Attempt]) with 0%nat. lia. }
  destruct (send_notification_attempts (WebhookNotifier_init put_hook) dest
              payload tr) as (made & Hdeliver & _).
  { vm_compute; discriminate. }
  rewrite Hdeliver. cbn [fst snd]. split; [reflexivity|].
  rewrite requests_app.
  assert (requests (delivery_events (WebhookNotifier_init put_hook) payload
                      made) = 0%nat) as ->; [|lia].
  clear Hdeliver. induction made as [|[|made] IH]; [done | done |].
  rewrite delivery_events_succ by lia.
  rewrite requests_app. cbn in *. exact IH.
Qed.

(** ** The notification filter *)

(** C8. For an outcome whose [status_changed] is false,
    [notify_port_status_change] returns true and does nothing to the
    outside: no attempt, no request, no sleep. *)
Theorem notify_unchanged_is_noop (self : WebhookNotifier) (dest : destination)
    (clk : wallclock) (check_result : CheckResult) (tr : list event) :
  status_changed check_result = false ->
  notify_port_status_change self dest clk check_result tr = (true, tr) /\
  requests (notify_port_status_change self dest clk check_result tr).2
  = requests tr.
Proof.
  intros Hsame. unfold notify_port_status_change. by rewrite Hsame.
Qed.

Lemma notify_unchanged_is_noop_witness :
  status_changed steady = false /\
  notify_port_status_change (WebhookNotifier_init generic_hook)
    third_time_lucky noon steady [] = (true, []) /\
  requests (notify_port_status_change (WebhookNotifier_init generic_hook)
              third_time_lucky noon steady []).2 = requests [].
Proof.
  split; [reflexivity|].
  apply (notify_unchanged_is_noop (WebhookNotifier_init generic_hook)
           third_time_lucky noon steady []).
  reflexivity.
Defined.

(** ** Payload rendering *)

(** C9 as amended. [format_port_status_message] chooses one of three
    shapes by the URL alone. A URL containing feishu.cn or larksuite.com
    gives [{msg_type, content: {text}}]; otherwise a URL containing
    dingtalk.com gives [{msgtype, text: {content}}]; every other URL gives
    the flat shape with the ten keys of [generic_keys], where [status] is
    "UP" or "DOWN", [response_time_ms] and [checked_at] are taken from the
    outcome as they are ([checked_at] being the epoch-seconds number of
    the outcome, or the formatted local time when the outcome has none)
    and [timestamp] is the current time. *)
Theorem format_port_status_message_shape (self : WebhookNotifier)
    (clk : wallclock) (check_result : CheckResult) :
  let message := format_port_status_message self clk check_result in
  (is_feishu (url self) = true ->
   exists text,
     message = VDict [("msg_type", VAtom (AStr (msg_type self)));
                      ("content", VDict [("text", VText text)])]) /\
  (is_feishu (url self) = false -> is_dingtalk (url self) = true ->
   exists text,
     message = VDict [("msgtype", VAtom (AStr "text"));
                      ("text", VDict [("content", VText text)])]) /\
  (is_feishu (url self) = false -> is_dingtalk (url self) = false ->
   keys message = generic_keys /\
   dict_get "msg_type" message = Some (VAtom (AStr (msg_type self))) /\
   (exists title, dict_get "title" message = Some (VText title)) /\
   dict_get "server_name" message
   = Some (VAtom (AStr (name (server check_result)))) /\
   dict_get "host" message
   = Some (VAtom (AStr (host (server check_result)))) /\
   dict_get "port" message
   = Some (VAtom (AInt (port (server check_result)))) /\
   dict_get "protocol" message
   = Some (VAtom (AStr (protocol (server check_result)))) /\
   dict_get "status" message
   = Some (VAtom (AStr (if is_alive check_result then "UP" else "DOWN"))) /\
   dict_get "response_time_ms" message
   = Some (VAtom (match response_time check_result with
                  | Some t => AFloat t
                  | None => ANone
                  end)) /\
   dict_get "checked_at" message
   = Some (VAtom (match checked_at check_result with
                  | Some t => AFloat t
                  | None => AStr (time_strftime clk)
                  end)) /\
   dict_get "timestamp" message = Some (VAtom (AFloat (time_time clk)))).
Proof.
  unfold format_port_status_message. cbn zeta.
  split; [|split].
  - intros ->. eexists. reflexivity.
  - intros -> ->. eexists. reflexivity.
  - intros -> ->. split; [reflexivity|].
    split; [reflexivity|]. split; [eexists; reflexivity|].
    repeat split; reflexivity.
Qed.

Lemma format_port_status_message_shape_witness :
  is_feishu (url (WebhookNotifier_init feishu_hook)) = true /\
  exists text,
    format_port_status_message (WebhookNotifier_init feishu_hook) noon steady
    = VDict [("msg_type",
              VAtom (AStr (msg_type (WebhookNotifier_init feishu_hook))));
             ("content", VDict [("text", VText text)])].
Proof.
  split; [reflexivity|].
  apply (proj1 (format_port_status_message_shape
                  (WebhookNotifier_init feishu_hook) noon steady)).
  reflexivity.
Defined.

(** C9, as stated, fails in one detail: for an outcome that [check_server]
    returned and a URL of no known provider, the payload has all ten keys
    but its [checked_at] is the number [time.time()] gave, not a string. *)
Lemma format_port_status_message_counterexample :
  let self := WebhookNotifier_init generic_hook in
  is_feishu (url self) = false /\
  is_dingtalk (url self) = false /\
  exists out,
    (check_server seen_up refusing web).2 = Ok out /\
    keys (format_port_status_message self noon out) = generic_keys /\
    dict_get "checked_at" (format_port_status_message self noon out)
    = Some (VAtom (AFloat (1700000000 # 1))) /\
    forall v,
      dict_get "checked_at" (format_port_status_message self noon out)
      = Some v ->
      is_str v = false.
Proof.
  cbn zeta. split; [reflexivity|]. split; [reflexivity|].
  eexists. split; [reflexivity|]. split; [reflexivity|].
  split; [reflexivity|].
  intros v [= <-]. reflexivity.
Qed.

(** * Further properties *)

(** ** Endpoint identity *)

Lemma occurs_app (c : ascii) (s t : string) :
  occurs c (s +:+ t) = (occurs c s || occurs c t)%bool.
Proof.
  induction s as [|c' s IH]; [done|].
  change (String c' s +:+ t) with (String c' (s +:+ t)). cbn [occurs].
  rewrite IH. by destruct (Ascii.eqb c c').
Qed.

Lemma pretty_N_char_not_colon (x : N) : pretty_N_char x <> ":"%char.
Proof.
  unfold pretty_N_char. by repeat case_match.
Qed.

Lemma pretty_N_go_no_colon (x : N) :
  forall s, occurs ":" s = false -> occurs ":" (pretty_N_go x s) = false.
Proof.
  induction (N.lt_wf_0 x) as [x _ IH]. intros s Hs.
  destruct (decide (x = 0)%N) as [-> | Hpos].
  - by rewrite pretty_N_go_0.
  - rewrite pretty_N_go_step by lia.
    apply IH.
    + apply N.div_lt; lia.
    + cbn [occurs].
      destruct (Ascii.eqb_spec ":" (pretty_N_char (x `mod` 10)))
        as [Heq | _]; [|done].
      by destruct (pretty_N_char_not_colon (x `mod` 10)%N).
Qed.

Lemma pretty_Z_no_colon (z : Z) : occurs ":" (pretty z) = false.
Proof.
  assert (forall p : positive, occurs ":" (pretty p) = false) as Hpos.
  { intros p. unfold pretty, pretty_positive, pretty, pretty_N.
    case_decide; [done|]. by apply pretty_N_go_no_colon. }
  destruct z as [|p|p]; [done | apply Hpos |].
  unfold pretty, pretty_Z. rewrite occurs_app.
  change (occurs ":" "-") with false. apply Hpos.
Qed.

(** A string is cut in one way only at its last colon. *)
Lemma split_at_last_colon (a c b d : string) :
  occurs ":" b = false -> occurs ":" d = false ->
  a +:+ ":" +:+ b = c +:+ ":" +:+ d ->
  a = c /\ b = d.
Proof.
  intros Hb Hd. revert c.
  assert (forall s, "" +:+ s = s) as Hnil by done.
  assert (forall x s t, String x s +:+ t = String x (s +:+ t)) as Hcons
    by done.
  induction a as [|x a IH]; intros [|y c] Heq;
    rewrite ?Hnil, ?Hcons, ?Hnil in Heq.
  - by injection Heq.
  - injection Heq as <- ->.
    rewrite occurs_app in Hb.
    change (occurs ":" (String ":" d)) with true in Hb.
    by rewrite orb_true_r in Hb.
  - injection Heq as -> <-.
    rewrite occurs_app in Hd.
    change (occurs ":" (String ":" b)) with true in Hd.
    by rewrite orb_true_r in Hd.
  - injection Heq as -> Heq.
    destruct (IH c Heq) as [-> ->]. done.
Qed.

Lemma string_app_assoc (a b c : string) : (a +:+ b) +:+ c = a +:+ b +:+ c.
Proof.
  induction a as [|x a IH]; [done|].
  change (String x (a +:+ b) +:+ c = String x (a +:+ b +:+ c)).
  change (String x ((a +:+ b) +:+ c) = String x (a +:+ b +:+ c)).
  by rewrite IH.
Qed.

(** X1. Two tcp or udp endpoints have the same key in [previous_states]
    exactly when they have the same host, the same port and, up to case,
    the same protocol: the name plays no part, and a host with colons in
    it cannot make two different endpoints share an entry. *)
Theorem server_key_inj (s1 s2 : Server) :
  lower (protocol s1) = "tcp" \/ lower (protocol s1) = "udp" ->
  lower (protocol s2) = "tcp" \/ lower (protocol s2) = "udp" ->
  server_key s1 = server_key s2 <->
  host s1 = host s2 /\ port s1 = port s2 /\
  lower (protocol s1) = lower (protocol s2).
Proof.
  intros H1 H2. unfold server_key. split.
  - intros Hkey.
    rewrite <- (string_app_assoc (host s1) ":" (pretty (port s1) +:+ _)) in Hkey.
    rewrite <- (string_app_assoc (host s2) ":" (pretty (port s2) +:+ _)) in Hkey.
    rewrite <- (string_app_assoc (host s1 +:+ ":") (pretty (port s1))) in Hkey.
    rewrite <- (string_app_assoc (host s2 +:+ ":") (pretty (port s2))) in Hkey.
    apply split_at_last_colon in Hkey as [Hleft Hproto].
    + rewrite !string_app_assoc in Hleft.
      apply split_at_last_colon in Hleft as [Hhost Hport];
        try apply pretty_Z_no_colon.
      split; [done|]. split; [|done]. by apply (inj pretty).
    + by destruct H1 as [-> | ->].
    + by destruct H2 as [-> | ->].
  - intros (-> & -> & ->). done.
Qed.

(** ** Memory across checks *)

Lemma check_server_key_entry (self : PortChecker) (net : network)
    (server0 : Server) :
  previous_states (check_server self net server0).1 !! server_key server0 =
    match probe self net server0 with
    | Some (Ok (reading, _)) => Some reading
    | _ => previous_states self !! server_key server0
    end.
Proof.
  rewrite check_server_memory.
  destruct (probe self net server0) as [[[reading latency] | e] |]; try done.
  apply lookup_insert_eq.
Qed.

(** The outcome of a check depends on memory through the entry of the
    endpoint only. *)
Lemma check_server_reads_own_entry (a b : PortChecker) (net : network)
    (server0 : Server) :
  previous_states a !! server_key server0
  = previous_states b !! server_key server0 ->
  (check_server a net server0).2 = (check_server b net server0).2.
Proof.
  intros Hsame. unfold check_server.
  change (probe b net server0) with (probe a net server0).
  destruct (probe a net server0) as [[[reading latency] | e] |]; try done.
  cbn. by rewrite Hsame.
Qed.

Lemma check_all_loop_acc (servers : list Server) :
  forall (self : PortChecker) (w : world) (acc : list CheckResult),
    check_all_loop self w servers acc =
      ((check_all_loop self w servers []).1,
       match (check_all_loop self w servers []).2 with
       | Ok results => Ok (acc ++ results)
       | Raise e => Raise e
       end).
Proof.
  induction servers as [|s rest IH]; intros self w acc; cbn.
  - by rewrite app_nil_r.
  - destruct (check_server self (w 0%nat) s) as [self1 [out | e]]; [|done].
    rewrite (IH self1 (later w) (acc ++ [out])).
    rewrite (IH self1 (later w) [out]). cbn.
    destruct (check_all_loop self1 (later w) rest []) as [self2 [results|e]];
      cbn; [|done].
    by rewrite <- app_assoc.
Qed.

(** A cycle is the check of its first endpoint followed by the cycle over
    the others. *)
Lemma check_all_servers_cons (self : PortChecker) (w : world)
    (s : Server) (rest : list Server) :
  check_all_servers self w (s :: rest) =
    match check_server self (w 0%nat) s with
    | (self1, Ok out) =>
        ((check_all_servers self1 (later w) rest).1,
         match (check_all_servers self1 (later w) rest).2 with
         | Ok results => Ok (out :: results)
         | Raise e => Raise e
         end)
    | (self1, Raise e) => (self1, Raise e)
    end.
Proof.
  unfold check_all_servers. cbn [check_all_loop].
  destruct (check_server self (w 0%nat) s) as [self1 [out | e]]; [|done].
  by rewrite check_all_loop_acc.
Qed.

(** X2. A cycle never removes an entry from [previous_states], whether it
    returns or raises. *)
Theorem check_all_servers_keeps_entries (servers : list Server) :
  forall (self : PortChecker) (w : world) (key : string),
    is_Some (previous_states self !! key) ->
    is_Some (previous_states (check_all_servers self w servers).1 !! key).
Proof.
  induction servers as [|s rest IH]; intros self w key Hkey; [done|].
  rewrite check_all_servers_cons.
  assert (is_Some (previous_states (check_server self (w 0%nat) s).1 !! key))
    as Hstep.
  { rewrite check_server_memory.
    destruct (probe self (w 0%nat) s) as [[[reading latency] | e] |];
      try done.
    destruct (decide (server_key s = key)) as [<- | Hne].
    - rewrite lookup_insert_eq. by eexists.
    - by rewrite lookup_insert_ne. }
  destruct (check_server self (w 0%nat) s) as [self1 [out | e]]; [|done].
  apply IH. exact Hstep.
Qed.

Lemma cycle_untouched_entry (servers : list Server) :
  forall (self : PortChecker) (w : world) (key : string),
    key ∉ server_key <$> servers ->
    previous_states (check_all_servers self w servers).1 !! key
    = previous_states self !! key.
Proof.
  induction servers as [|s rest IH]; intros self w key Hkey; [done|].
  rewrite fmap_cons in Hkey. apply not_elem_of_cons in Hkey as [Hne Hrest].
  rewrite check_all_servers_cons.
  pose proof (check_server_frame_any self (w 0%nat) s key Hne) as Hstep.
  destruct (check_server self (w 0%nat) s) as [self1 [out | e]]; [|done].
  cbn [fst] in *. by rewrite IH.
Qed.

(** X3. A cycle leaves the entry of every identity that belongs to none
    of its endpoints as it was, whether it returns or raises. *)
Theorem check_all_servers_frame (servers : list Server) (self : PortChecker)
    (w : world) (key : string) :
  key ∉ server_key <$> servers ->
  previous_states (check_all_servers self w servers).1 !! key
  = previous_states self !! key.
Proof. apply cycle_untouched_entry. Qed.

(** With pairwise different identities the endpoints of a cycle do not
    influence each other: each outcome is the one [check_server] gives on
    the memory from before the cycle, and the entry of each endpoint after
    the cycle is the one that check leaves. *)
Lemma cycle_pointwise (servers : list Server) :
  forall (self self' : PortChecker) (w : world) (results : list CheckResult),
    NoDup (server_key <$> servers) ->
    check_all_servers self w servers = (self', Ok results) ->
    length results = length servers /\
    forall i s,
      servers !! i = Some s ->
      exists out,
        results !! i = Some out /\
        (check_server self (w i) s).2 = Ok out /\
        previous_states self' !! server_key s
        = previous_states (check_server self (w i) s).1 !! server_key s.
Proof.
  induction servers as [|s0 rest IH]; intros self self' w results Hnodup Hrun.
  - injection Hrun as <- <-. split; [done|]. by intros i s.
  - rewrite fmap_cons in Hnodup. apply NoDup_cons in Hnodup as [Hfresh Hnodup].
    rewrite check_all_servers_cons in Hrun.
    pose proof (cycle_untouched_entry rest (check_server self (w 0%nat) s0).1
                  (later w) (server_key s0) Hfresh) as Hkept.
    destruct (check_server self (w 0%nat) s0) as [self1 [out0 | e]] eqn:Hfirst;
      [|done].
    cbn [fst] in Hkept.
    destruct (check_all_servers self1 (later w) rest)
      as [self2 [results' | e]] eqn:Hrest; [|done].
    cbn [fst snd] in *. injection Hrun as <- <-.
    destruct (IH self1 self2 (later w) results' Hnodup Hrest) as [Hlen Hall].
    split; [cbn; by rewrite Hlen|].
    intros [|i] s Hs.
    + injection Hs as <-. exists out0. rewrite Hfirst. by repeat split.
    + destruct (Hall i s Hs) as (out & Hout & Hcheck & Hentry).
      assert (server_key s <> server_key s0) as Hne.
      { intros Heq. apply Hfresh. rewrite <- Heq.
        apply list_elem_of_fmap. exists s. split; [done|].
        exact (list_elem_of_lookup_2 rest i s Hs). }
      assert (previous_states self1 !! server_key s
              = previous_states self !! server_key s) as Hsame.
      { pose proof (check_server_frame_any self (w 0%nat) s0 _ Hne) as Hf.
        by rewrite Hfirst in Hf. }
      exists out. split; [done|]. unfold later in *. split.
      * by rewrite <- (check_server_reads_own_entry self1 self _ _ Hsame).
      * rewrite Hentry, !check_server_key_entry.
        change (probe self (w (S i)) s) with (probe self1 (w (S i)) s).
        by rewrite Hsame.
Qed.

(** X4. In a cycle over endpoints with pairwise different identities the
    order does not matter to the outcomes: every endpoint gets the outcome
    that [check_server] alone gives on the memory from before the cycle,
    and its entry after the cycle is the one that check leaves. *)
Theorem check_all_servers_independent (servers : list Server)
    (self self' : PortChecker) (w : world) (results : list CheckResult) :
  NoDup (server_key <$> servers) ->
  check_all_servers self w servers = (self', Ok results) ->
  length results = length servers /\
  forall i s,
    servers !! i = Some s ->
    exists out,
      results !! i = Some out /\
      (check_server self (w i) s).2 = Ok out /\
      previous_states self' !! server_key s
      = previous_states (check_server self (w i) s).1 !! server_key s.
Proof. apply cycle_pointwise. Qed.

(** X5. The first cycle of a fresh checker over endpoints with pairwise
    different identities reports no change at all. *)
Theorem first_cycle_reports_no_change (servers : list Server) (t : Z)
    (w : world) (self' : PortChecker) (results : list CheckResult) :
  NoDup (server_key <$> servers) ->
  check_all_servers (PortChecker_init t) w servers = (self', Ok results) ->
  forall out, out ∈ results -> status_changed out = false.
Proof.
  intros Hnodup Hrun out Hin.
  destruct (cycle_pointwise servers _ _ _ _ Hnodup Hrun) as [Hlen Hall].
  apply list_elem_of_lookup in Hin as [i Hi].
  destruct (lookup_lt_is_Some_2 servers i) as [s Hs].
  { rewrite <- Hlen. by apply lookup_lt_Some in Hi. }
  destruct (Hall i s Hs) as (out' & Hout & Hcheck & _).
  assert (out' = out) as -> by congruence.
  by apply (first_check_reports_no_change t (w i) s).
Qed.

(** Whether there is a probe is a matter of the protocol alone. *)
Lemma probe_none_any_network (self self' : PortChecker) (net net' : network)
    (server0 : Server) :
  probe self net server0 = None -> probe self' net' server0 = None.
Proof.
  unfold probe.
  destruct (String.eqb _ "tcp"); [done|].
  by destruct (String.eqb _ "udp").
Qed.

(** X6. Of two cycles in a row over the same endpoints, with pairwise
    different identities, the second reports a change for an endpoint
    exactly when its reading differs from the one of the first cycle. *)
Theorem second_cycle_reports_differences (servers : list Server)
    (self self1 self2 : PortChecker) (w1 w2 : world)
    (results1 results2 : list CheckResult) :
  NoDup (server_key <$> servers) ->
  check_all_servers self w1 servers = (self1, Ok results1) ->
  check_all_servers self1 w2 servers = (self2, Ok results2) ->
  forall i out1 out2,
    results1 !! i = Some out1 ->
    results2 !! i = Some out2 ->
    status_changed out2 = negb (Bool.eqb (is_alive out1) (is_alive out2)).
Proof.
  intros Hnodup Hrun1 Hrun2 i out1 out2 Hout1 Hout2.
  destruct (cycle_pointwise servers _ _ _ _ Hnodup Hrun1) as [Hlen1 Hall1].
  destruct (cycle_pointwise servers _ _ _ _ Hnodup Hrun2) as [Hlen2 Hall2].
  destruct (lookup_lt_is_Some_2 servers i) as [s Hs].
  { rewrite <- Hlen1. by apply lookup_lt_Some in Hout1. }
  destruct (Hall1 i s Hs) as (o1 & Ho1 & Hcheck1 & Hentry1).
  destruct (Hall2 i s Hs) as (o2 & Ho2 & Hcheck2 & _).
  assert (o1 = out1) as -> by congruence.
  assert (o2 = out2) as -> by congruence.
  rewrite check_server_key_entry in Hentry1.
  unfold check_server in Hcheck1, Hcheck2.
  change (probe self1 (w2 i) s) with (probe self (w2 i) s) in Hcheck2.
  destruct (probe self (w1 i) s) as [[[r1 l1] | e1] |] eqn:Hp1; [|done|].
  - destruct (probe self (w2 i) s) as [[[r2 l2] | e2] |] eqn:Hp2; [|done|].
    + cbn in *. injection Hcheck1 as <-. injection Hcheck2 as <-. cbn.
      by rewrite Hentry1.
    + apply (probe_none_any_network _ self _ (w1 i)) in Hp2. congruence.
  - destruct (probe self (w2 i) s) as [[[r2 l2] | e2] |] eqn:Hp2; [| done |].
    + apply (probe_none_any_network _ self _ (w2 i)) in Hp1. congruence.
    + cbn in *. by injection Hcheck1 as <-; injection Hcheck2 as <-.
Qed.

(** ** A fault in the middle of a cycle *)

Lemma check_all_servers_nil (self : PortChecker) (w : world) :
  check_all_servers self w [] = (self, Ok []).
Proof. reflexivity. Qed.

(** A cycle that meets its first fault at position [i] ends in the state
    the cycle over the first [i] endpoints ends in. *)
Lemma cycle_fault_prefix (servers : list Server) :
  forall (self : PortChecker) (w : world) (i : nat) (s : Server) (e : exn),
    servers !! i = Some s ->
    probe_fault self (w i) s = Some e ->
    (forall j s', (j < i)%nat -> servers !! j = Some s' ->
                  probe_fault self (w j) s' = None) ->
    check_all_servers self w servers
    = ((check_all_servers self w (take i servers)).1, Raise e) /\
    exists results,
      (check_all_servers self w (take i servers)).2 = Ok results.
Proof.
  induction servers as [|s0 rest IH]; intros self w i s e Hi He Hbefore;
    [done|].
  destruct i as [|i].
  - injection Hi as ->. rewrite check_all_servers_cons.
    rewrite (check_server_raises _ _ _ _ He). cbn [take].
    rewrite check_all_servers_nil. split; [done | by eexists].
  - cbn [take]. rewrite !check_all_servers_cons.
    destruct (check_server_returns self (w 0%nat) s0) as (out & Hout & _).
    { apply (Hbefore 0%nat); [lia | done]. }
    destruct (check_server self (w 0%nat) s0) as [self1 r].
    cbn in Hout. subst r.
    destruct (IH self1 (later w) i s e) as (Hrun & results & Hres).
    + done.
    + by rewrite (probe_fault_self self1 self).
    + intros j s' Hj Hs'. rewrite (probe_fault_self self1 self).
      apply (Hbefore (S j)); [lia | done].
    + rewrite Hrun, Hres. cbn. split; [done | by eexists].
Qed.

(** X7. When the probe of one endpoint raises what the probes do not
    catch, the cycle raises, so [run_check_task] raises and sends no
    notification; yet the entries of the endpoints checked before it have
    already been replaced by their new readings, while those of the
    faulting endpoint and of the ones after it are as before the cycle
    (identities pairwise different). *)
Theorem fault_keeps_earlier_updates (servers : list Server)
    (self : PortChecker) (notifier : WebhookNotifier) (w : world)
    (dest : destination) (clks : clocks) (tr : list event)
    (i : nat) (s : Server) (e : exn) :
  NoDup (server_key <$> servers) ->
  servers !! i = Some s ->
  probe_fault self (w i) s = Some e ->
  (forall j s', (j < i)%nat -> servers !! j = Some s' ->
                probe_fault self (w j) s' = None) ->
  let after := (check_all_servers self w servers).1 in
  run_check_task self notifier w dest clks servers tr = (after, Raise e) /\
  (forall j s', (j < i)%nat -> servers !! j = Some s' ->
     previous_states after !! server_key s'
     = previous_states (check_server self (w j) s').1 !! server_key s') /\
  (forall j s', (i <= j)%nat -> servers !! j = Some s' ->
     previous_states after !! server_key s'
     = previous_states self !! server_key s').
Proof.
  intros Hnodup Hi He Hbefore after.
  destruct (cycle_fault_prefix servers self w i s e Hi He Hbefore)
    as (Hrun & results & Hres).
  assert (NoDup (server_key <$> take i servers)) as Hnodup_take.
  { rewrite fmap_take.
    exact (sublist_NoDup _ _ Hnodup (sublist_take _ i)). }
  subst after. unfold run_check_task. rewrite Hrun. cbn [fst].
  split; [done|]. split.
  - intros j s' Hj Hs'.
    destruct (check_all_servers self w (take i servers)) as [self1 r] eqn:Hpre.
    cbn in Hres. subst r.
    destruct (cycle_pointwise _ _ _ _ _ Hnodup_take Hpre) as [_ Hall].
    destruct (Hall j s') as (out & _ & _ & Hentry); [|done].
    by rewrite lookup_take_lt.
  - intros j s' Hj Hs'. apply cycle_untouched_entry.
    rewrite fmap_take. intros Hin.
    apply elem_of_take in Hin as (k & Hk & Hlt).
    assert ((server_key <$> servers) !! j = Some (server_key s')) as Hkj.
    { by rewrite list_lookup_fmap, Hs'. }
    pose proof (NoDup_lookup _ _ _ _ Hnodup Hk Hkj). lia.
Qed.

(** ** The notifier as [__init__] builds it *)

(** X9. A notifier built by [__init__], even from a negative
    [retry_count], makes at least one attempt per delivery and at most
    [max 1 retry_count] of them. *)
Theorem init_always_attempts (config : WebhookConfig) (dest : destination)
    (payload : pyval) (tr : list event) :
  let self := WebhookNotifier_init config in
  let made := (attempts (send_notification self dest payload tr).2
               - attempts tr)%nat in
  (1 <= made <= Z.to_nat (Z.max 1 (cfg_retry_count config)))%nat.
Proof.
  cbn zeta.
  destruct (send_notification_attempts (WebhookNotifier_init config) dest
              payload tr) as (made & Hsend & Hmade & _); [cbn; lia|].
  rewrite Hsend. cbn [snd].
  rewrite attempts_app, attempts_delivery_events.
  cbn [retry_count WebhookNotifier_init] in Hmade. lia.
Qed.

(** The requests among the events of a delivery. *)
Lemma delivery_events_requests (self : WebhookNotifier) (payload : pyval)
    (made : nat) (r : http_request) :
  Request r ∈ delivery_events self payload made ->
  request_of self payload = Some r.
Proof.
  assert (Request r ∈ attempt_events self payload ->
          request_of self payload = Some r) as Hone.
  { unfold attempt_events.
    destruct (request_of self payload) as [req|].
    - intros Hin. apply elem_of_cons in Hin as [? | Hin]; [done|].
      apply list_elem_of_singleton in Hin. congruence.
    - intros Hin. apply list_elem_of_singleton in Hin. done. }
  induction made as [|[|made] IH]; intros Hin.
  - by apply elem_of_nil in Hin.
  - by apply Hone.
  - rewrite delivery_events_succ in Hin by lia.
    apply elem_of_app in Hin as [Hin | Hin]; [by apply Hone|].
    apply elem_of_cons in Hin as [? | Hin]; [done | by apply IH].
Qed.

(** X10. With a method other than GET and POST (PUT, which the
    configuration check lets through, or anything else) a delivery makes
    no request at all and returns false. *)
Theorem other_methods_never_request (self : WebhookNotifier)
    (dest : destination) (payload : pyval) (tr : list event) :
  0 <= retry_count self ->
  method self <> "GET" -> method self <> "POST" ->
  (send_notification self dest payload tr).1 = false /\
  exists new,
    (send_notification self dest payload tr).2 = tr ++ new /\
    forall r, Request r ∉ new.
Proof.
  intros Hrc Hget Hpost.
  assert (request_of self payload = None) as Hnone.
  { unfold request_of.
    destruct (String.eqb_spec (method self) "POST"); [done|].
    by destruct (String.eqb_spec (method self) "GET"). }
  destruct (send_notification_attempts self dest payload tr Hrc)
    as (made & Hsend & _).
  rewrite Hsend. cbn [fst snd]. split.
  - unfold attempt_succeeds. by rewrite Hnone.
  - eexists. split; [done|]. intros r Hin.
    apply delivery_events_requests in Hin. congruence.
Qed.

Lemma other_methods_never_request_witness :
  0 <= retry_count (WebhookNotifier_init put_hook) /\
  method (WebhookNotifier_init put_hook) <> "GET" /\
  method (WebhookNotifier_init put_hook) <> "POST" /\
  (send_notification (WebhookNotifier_init put_hook) third_time_lucky alert
     []).1 = false.
Proof.
  split; [vm_compute; discriminate|].
  split; [discriminate|]. split; [discriminate|].
  apply (other_methods_never_request (WebhookNotifier_init put_hook)
           third_time_lucky alert []);
    [vm_compute; discriminate | discriminate | discriminate].
Defined.

(** X11. Every request of a delivery goes to the configured URL with the
    notifier's method and headers, a timeout of 15 seconds and the payload
    it was given: as JSON for a POST whose Content-Type is
    application/json, as form data for any other POST, as query
    parameters for a GET. *)
Theorem requests_carry_payload (self : WebhookNotifier) (dest : destination)
    (payload : pyval) (tr : list event) :
  0 <= retry_count self ->
  exists new,
    (send_notification self dest payload tr).2 = tr ++ new /\
    forall r,
      Request r ∈ new ->
      req_method r = method self /\
      req_url r = url self /\
      req_headers r = headers self /\
      req_payload r = payload /\
      req_timeout r = 15 /\
      req_encoding r =
        (if String.eqb (method self) "GET" then Params
         else if bool_decide
                   (headers self !! "Content-Type" = Some "application/json")
              then Json else Data).
Proof.
  intros Hrc.
  destruct (send_notification_attempts self dest payload tr Hrc)
    as (made & Hsend & _).
  rewrite Hsend. cbn [snd]. eexists. split; [done|].
  intros r Hin. apply delivery_events_requests in Hin.
  unfold request_of in Hin.
  destruct (String.eqb_spec (method self) "POST") as [Hpost | Hpost].
  - rewrite Hpost. cbn [String.eqb Ascii.eqb Bool.eqb].
    case_bool_decide; injection Hin as <-; by repeat split.
  - destruct (String.eqb_spec (method self) "GET") as [Hget | Hget];
      [|done].
    injection Hin as <-. by repeat split.
Qed.

Lemma requests_carry_payload_witness :
  0 <= retry_count (WebhookNotifier_init generic_hook) /\
  exists new,
    (send_notification (WebhookNotifier_init generic_hook) third_time_lucky
       alert []).2 = [] ++ new.
Proof.
  split; [vm_compute; discriminate|].
  destruct (requests_carry_payload (WebhookNotifier_init generic_hook)
              third_time_lucky alert []) as (new & Hnew & _);
    [vm_compute; discriminate|].
  by exists new.
Defined.

(** ** The task of a tick *)

Lemma sleeps_app (tr1 tr2 : list event) :
  sleeps (tr1 ++ tr2) = sleeps tr1 ++ sleeps tr2.
Proof. unfold sleeps. apply filter_app. Qed.

Lemma notify_changes_quiet (notifier : WebhookNotifier) (dest : destination)
    (results : list CheckResult) :
  forall (clks : clocks) (tr : list event),
    (forall out, out ∈ results -> status_changed out = false) ->
    notify_changes notifier dest clks results tr = tr.
Proof.
  induction results as [|out rest IH]; intros clks tr Hquiet; [done|].
  cbn [notify_changes].
  rewrite (Hquiet out) by apply list_elem_of_here.
  apply IH. intros out' Hin. apply Hquiet. by apply list_elem_of_further.
Qed.

(** The events of a tick, outcome by outcome: a delivery of between one
    and [max 1 retry_count] attempts for an outcome that reports a change,
    nothing for another. *)
Lemma notify_changes_segments (notifier : WebhookNotifier)
    (dest : destination) (results : list CheckResult) :
  forall (clks : clocks) (tr : list event),
    0 <= retry_count notifier ->
    let total := Z.to_nat (Z.max 1 (retry_count notifier)) in
    exists segments : list (list event),
      notify_changes notifier dest clks results tr = tr ++ concat segments /\
      length segments = length results /\
      forall i out segment,
        results !! i = Some out -> segments !! i = Some segment ->
        if status_changed out then
          exists made,
            (1 <= made <= total)%nat /\
            segment =
              delivery_events notifier
                (format_port_status_message notifier (clks i) out) made /\
            attempts segment = made /\
            length (sleeps segment) = (made - 1)%nat
        else segment = [].
Proof.
  induction results as [|out0 rest IH]; intros clks tr Hrc total.
  - exists []. cbn. rewrite app_nil_r. split; [done|]. split; [done|].
    by intros i out segment.
  - cbn [notify_changes].
    destruct (status_changed out0) eqn:Hchanged.
    + unfold notify_port_status_change. rewrite Hchanged. cbn [negb].
      destruct (send_notification_attempts notifier dest
                  (format_port_status_message notifier (clks 0%nat) out0) tr
                  Hrc) as (made & Hsend & Hmade & _).
      rewrite Hsend. cbn [snd].
      destruct (IH (fun n => clks (S n))
                  (tr ++ delivery_events notifier
                           (format_port_status_message notifier (clks 0%nat)
                              out0) made) Hrc)
        as (segments & Hrest & Hlen & Hall).
      exists (delivery_events notifier
                (format_port_status_message notifier (clks 0%nat) out0) made
              :: segments).
      rewrite Hrest. cbn [concat length]. rewrite <- app_assoc.
      split; [done|]. split; [by rewrite Hlen|].
      intros [|i] out segment Hout Hsegment.
      * injection Hout as <-. injection Hsegment as <-. rewrite Hchanged.
        exists made. split; [done|]. split; [done|]. split.
        -- apply attempts_delivery_events.
        -- by rewrite sleeps_delivery_events, length_replicate.
      * exact (Hall i out segment Hout Hsegment).
    + destruct (IH (fun n => clks (S n)) tr Hrc)
        as (segments & Hrest & Hlen & Hall).
      exists ([] :: segments). rewrite Hrest. cbn [concat length app].
      split; [done|]. split; [by rewrite Hlen|].
      intros [|i] out segment Hout Hsegment.
      * injection Hout as <-. injection Hsegment as <-. by rewrite Hchanged.
      * exact (Hall i out segment Hout Hsegment).
Qed.

(** X12. The first tick of a fresh checker, over endpoints with pairwise
    different identities, sends no notification: [run_check_task] leaves
    the trace of the notifier as it was. *)
Theorem first_tick_is_silent (servers : list Server) (t : Z)
    (notifier : WebhookNotifier) (w : world) (dest : destination)
    (clks : clocks) (tr : list event) (self' : PortChecker)
    (results : list CheckResult) :
  NoDup (server_key <$> servers) ->
  check_all_servers (PortChecker_init t) w servers = (self', Ok results) ->
  run_check_task (PortChecker_init t) notifier w dest clks servers tr
  = (self', Ok tr).
Proof.
  intros Hnodup Hrun. unfold run_check_task. rewrite Hrun.
  rewrite notify_changes_quiet; [done|].
  intros out Hin.
  destruct (cycle_pointwise servers _ _ _ _ Hnodup Hrun) as [Hlen Hall].
  apply list_elem_of_lookup in Hin as [i Hi].
  destruct (lookup_lt_is_Some_2 servers i) as [s Hs].
  { rewrite <- Hlen. by apply lookup_lt_Some in Hi. }
  destruct (Hall i s Hs) as (out' & Hout & Hcheck & _).
  assert (out' = out) as -> by congruence.
  by apply (first_check_reports_no_change t (w i) s).
Qed.

(** X13. A tick whose cycle returns handles its outcomes one by one and
    in order: for each outcome that reports a change it makes one delivery
    of the payload rendered from that outcome, with at least one attempt
    and at most [max 1 retry_count], and with one sleep between each two
    of them; for every other outcome it does nothing. *)
Theorem tick_attempts_bounded (servers : list Server) (self self' : PortChecker)
    (notifier : WebhookNotifier) (w : world) (dest : destination)
    (clks : clocks) (tr : list event) (results : list CheckResult) :
  0 <= retry_count notifier ->
  check_all_servers self w servers = (self', Ok results) ->
  let total := Z.to_nat (Z.max 1 (retry_count notifier)) in
  exists segments : list (list event),
    run_check_task self notifier w dest clks servers tr
    = (self', Ok (tr ++ concat segments)) /\
    length segments = length results /\
    forall i out segment,
      results !! i = Some out -> segments !! i = Some segment ->
      if status_changed out then
        exists made,
          (1 <= made <= total)%nat /\
          segment =
            delivery_events notifier
              (format_port_status_message notifier (clks i) out) made /\
          attempts segment = made /\
          length (sleeps segment) = (made - 1)%nat
      else segment = [].
Proof.
  intros Hrc Hrun total. unfold run_check_task. rewrite Hrun.
  destruct (notify_changes_segments notifier dest results clks tr Hrc)
    as (segments & Hnew & Hrest).
  exists segments. by rewrite Hnew.
Qed.

(** ** The configuration check *)

Ltac run_checked := unfold mbind, checked_bind; cbn beta iota.

Lemma require_fields_dict (missing : string -> config_error)
    (fields : list string) (entries : list (string * json)) :
  require_fields missing fields (JDict entries) = Valid tt <->
  Forall (fun field => is_Some (entry field entries)) fields.
Proof.
  induction fields as [|field rest IH]; cbn [require_fields].
  - split; [constructor | done].
  - run_checked. cbn [py_in].
    destruct (entry field entries) as [v|] eqn:Hfield; cbn.
    + rewrite IH. split.
      * intros Hrest. constructor; [by eexists | done].
      * by inversion 1.
    + split; [done|]. inversion 1 as [|? ? [v Hv]]; congruence.
Qed.

Lemma py_getitem_not_dict (container : json) (key : string) (v : json) :
  py_getitem container key = Valid v ->
  exists entries, container = JDict entries /\ entry key entries = Some v.
Proof.
  destruct container as [| | | | | |entries]; try discriminate.
  cbn. destruct (entry key entries) as [v'|] eqn:Hkey; [|discriminate].
  intros [= <-]. by exists entries.
Qed.

Lemma validate_server_iff (idx : Z) (server0 : json) :
  validate_server idx server0 = Valid tt <-> valid_server server0.
Proof.
  unfold validate_server, valid_server. split.
  - run_checked.
    destruct (require_fields _ _ server0) as [[]|] eqn:Hfields; [|done].
    destruct (py_getitem server0 "port") as [port|] eqn:Hport; [|done].
    apply py_getitem_not_dict in Hport as (fields & -> & Hport).
    apply require_fields_dict in Hfields.
    destruct (as_int port) as [p|] eqn:Hint; [|done].
    destruct ((1 <=? p)%Z && (p <=? 65535)%Z)%bool eqn:Hrange; [|done].
    cbn [negb py_getitem].
    destruct (entry "protocol" fields) as [raw|] eqn:Hproto; [|done].
    destruct raw as [| | | |pr| |]; try done. cbn [str_method].
    case_bool_decide as Hin; [|done]. intros _.
    exists fields, p, pr.
    inversion Hfields as [|? ? Hname Hrest]; subst.
    inversion Hrest as [|? ? Hhost _]; subst.
    repeat split; try done.
    + by rewrite Hport.
    + lia.
    + lia.
  - intros (fields & p & pr & -> & Hname & Hhost & Hport & Hrange & Hproto
            & Hin).
    destruct (entry "port" fields) as [port|] eqn:Hp; [|done].
    cbn in Hport.
    assert (require_fields (ServerMissingField idx)
              ["name"; "host"; "port"; "protocol"] (JDict fields) = Valid tt)
      as ->.
    { apply require_fields_dict.
      repeat constructor;
        first [done | by rewrite Hp | by rewrite Hproto]. }
    run_checked. cbn [py_getitem]. rewrite Hp, Hport.
    replace ((1 <=? p)%Z && (p <=? 65535)%Z)%bool with true by lia.
    cbn [negb]. rewrite Hproto. cbn [str_method].
    by rewrite bool_decide_eq_true_2.
Qed.

Lemma validate_servers_iff (servers : list json) :
  forall idx, validate_servers idx servers = Valid tt <->
              Forall valid_server servers.
Proof.
  induction servers as [|s rest IH]; intros idx; cbn [validate_servers].
  - split; [constructor | done].
  - run_checked.
    destruct (validate_server idx s) as [[]|] eqn:Hs.
    + apply validate_server_iff in Hs. rewrite IH. split.
      * by constructor.
      * by inversion 1.
    + split; [done|]. inversion 1 as [|? ? Hvalid _]; subst.
      apply (validate_server_iff idx) in Hvalid. congruence.
Qed.

Lemma positive_int_iff (v : json) :
  positive_int v = true <-> exists n, as_int v = Some n /\ 0 < n.
Proof.
  unfold positive_int. destruct (as_int v) as [n|].
  - split.
    + intros Hn. exists n. split; [done | lia].
    + intros (n' & [= <-] & Hn). lia.
  - split; [done | by intros (n & ? & _)].
Qed.

Lemma validate_config_iff (config : json) :
  validate_config config = Valid tt <-> well_formed config.
Proof.
  unfold validate_config, well_formed. split.
  - run_checked.
    destruct (require_fields _ _ config) as [[]|] eqn:Hsections; [|done].
    destruct (py_getitem config "servers") as [servers|] eqn:Hservers;
      [|done].
    apply py_getitem_not_dict in Hservers as (entries & -> & Hservers).
    destruct servers as [| | | | |servers|]; try done.
    destruct (length servers =? 0)%nat eqn:Hlen; [done|].
    destruct (validate_servers 1 servers) as [[]|] eqn:Hall; [|done].
    apply validate_servers_iff in Hall.
    cbn [py_getitem].
    destruct (entry "webhook" entries) as [webhook|] eqn:Hwebhook; [|done].
    destruct (require_fields _ _ webhook) as [[]|] eqn:Hwfields; [|done].
    destruct (py_getitem webhook "method") as [raw|] eqn:Hmethod; [|done].
    apply py_getitem_not_dict in Hmethod as (wentries & -> & Hmethod).
    apply require_fields_dict in Hwfields.
    destruct raw as [| | | |m| |]; try done. cbn [str_method].
    case_bool_decide as Hin; [|done]. cbn [negb].
    destruct (entry "check_interval" entries) as [ci|] eqn:Hci; [|done].
    destruct (positive_int ci) eqn:Hcipos; [|done]. cbn [negb].
    destruct (entry "timeout" entries) as [t|] eqn:Ht; [|done].
    destruct (positive_int t) eqn:Htpos; [|done]. intros _.
    apply positive_int_iff in Hcipos as (cin & Hcin & Hcin0).
    apply positive_int_iff in Htpos as (tn & Htn & Htn0).
    exists entries, servers, wentries, m, cin, tn.
    inversion Hwfields as [|? ? Hurl Hw1]; subst.
    inversion Hw1 as [|? ? _ Hw2]; subst.
    inversion Hw2 as [|? ? Hrc Hw3]; subst.
    inversion Hw3 as [|? ? Hri _]; subst.
    repeat split; try done.
    + intros ->. discriminate.
    + by rewrite Hci.
    + by rewrite Ht.
  - intros (entries & servers & webhook & m & cin & tn & -> & Hservers
            & Hnonempty & Hall & Hwebhook & Hurl & Hmethod & Hin & Hrc & Hri
            & Hci & Hcin & Ht & Htn).
    destruct (entry "check_interval" entries) as [ci|] eqn:Hcie; [|done].
    destruct (entry "timeout" entries) as [t|] eqn:Hte; [|done].
    cbn in Hci, Ht.
    assert (require_fields MissingSection
              ["check_interval"; "timeout"; "servers"; "webhook"]
              (JDict entries) = Valid tt) as ->.
    { apply require_fields_dict.
      repeat constructor;
        first [by rewrite Hcie | by rewrite Hte | by rewrite Hservers
              | by rewrite Hwebhook]. }
    run_checked. cbn [py_getitem]. rewrite Hservers.
    destruct servers as [|s0 rest]; [done|]. cbn [length Nat.eqb].
    apply (validate_servers_iff _ 1) in Hall. rewrite Hall.
    rewrite Hwebhook.
    assert (require_fields WebhookMissingField
              ["url"; "method"; "retry_count"; "retry_interval"]
              (JDict webhook) = Valid tt) as ->.
    { apply require_fields_dict.
      repeat constructor; first [done | by rewrite Hmethod]. }
    cbn [py_getitem]. rewrite Hmethod. cbn [str_method].
    rewrite bool_decide_eq_true_2 by done. cbn [negb].
    rewrite Hcie.
    assert (positive_int ci = true) as ->.
    { apply positive_int_iff. by exists cin. }
    cbn [negb]. rewrite Hte.
    assert (positive_int t = true) as ->.
    { apply positive_int_iff. by exists tn. }
    done.
Qed.

(** X14. [validate_config] returns without raising exactly for the
    configurations that are a dict with a non-empty list [servers] of
    dicts, each with [name], [host], an int [port] in 1..65535 (a bool
    counts as an int, so [true] passes as port 1) and a string [protocol]
    that is tcp or udp up to case, a dict [webhook] with [url],
    [retry_count], [retry_interval] and a string [method] that is GET,
    POST or PUT up to case, and positive ints [check_interval] and
    [timeout]. *)
Theorem validate_config_accepts_well_formed (config : json) :
  validate_config config = Valid tt <-> well_formed config.
Proof. apply validate_config_iff. Qed.

(** Letters outside ASCII whose upper case is an ASCII letter count in the
    method and in the log level as they do for [str.upper]. *)
Example upper_long_s : upper "poſt" = "POST".
Proof. reflexivity. Qed.

Example upper_ligature_st : upper "poﬆ" = "POST".
Proof. reflexivity. Qed.

Example upper_dotless_i : upper "crıtıcal" = "CRITICAL".
Proof. reflexivity. Qed.

Example upper_sharp_s : upper "straße" = "STRASSE".
Proof. reflexivity. Qed.

Example validate_config_long_s :
  validate_config
    (JDict [("check_interval", JInt 60); ("timeout", JInt 5);
            ("servers", JList [Samples.web_json]);
            ("webhook",
             JDict [("url", JStr "https://hooks.example.com/notify");
                    ("method", JStr "poſt");
                    ("retry_count", JInt 2);
                    ("retry_interval", JInt 1)])])
  = Valid tt.
Proof. reflexivity. Qed.

Example get_log_level_dotless_i :
  get_log_level (JDict [("log_level", JStr "crıtıcal")]) = Valid "CRITICAL".
Proof. reflexivity. Qed.

(** X15. Every server of a configuration that passed [validate_config],
    read as the endpoint [check_server] is given, has a port in 1..65535
    and a protocol [check_server] can probe: its outcome never is the
    unsupported-protocol one, so it has a check time and no error. *)
Theorem validated_servers_are_probed (config : json) (servers : list json)
    (v : json) (s : Server) (self : PortChecker) (net : network) :
  validate_config config = Valid tt ->
  get_servers config = Valid (JList servers) ->
  v ∈ servers ->
  server_of_json v = Some s ->
  1 <= port s <= 65535 /\
  is_Some (probe self net s) /\
  forall out,
    (check_server self net s).2 = Ok out ->
    error out = None /\ is_Some (checked_at out).
Proof.
  intros Hvalid Hservers Hin Hs.
  apply validate_config_iff in Hvalid
    as (entries & servers' & _ & _ & _ & _ & -> & Hentry & _ & Hall & _).
  unfold get_servers in Hservers. cbn in Hservers. rewrite Hentry in Hservers.
  injection Hservers as <-.
  rewrite Forall_forall in Hall.
  destruct (Hall v Hin)
    as (fields & p & pr & -> & _ & _ & Hport & Hrange & Hproto & Hsupported).
  unfold server_of_json in Hs. rewrite Hproto in Hs.
  destruct (entry "name" fields) as [[| | | |n| |]|]; try done.
  destruct (entry "host" fields) as [[| | | |h| |]|]; try done.
  destruct (entry "port" fields) as [[| |p'| | | |]|]; try done.
  injection Hs as <-. cbn in Hport. injection Hport as ->.
  assert (lower pr = "tcp" \/ lower pr = "udp") as Hproto'.
  { apply elem_of_cons in Hsupported as [? | Hsupported]; [by left|].
    apply list_elem_of_singleton in Hsupported. by right. }
  split; [done|]. split.
  - by apply probe_supported.
  - intros out. unfold check_server.
    destruct (probe_supported self net
                {| name := n; host := h; port := p; protocol := pr |} Hproto')
      as [r Hr].
    rewrite Hr. destruct r as [[reading latency] | e]; [|done].
    cbn. intros [= <-]. cbn. split; [done | by eexists].
Qed.

(** X16. [get_log_level] never returns anything but one of the five level
    names: a level of the configuration that is none of them, in any
    case, is replaced by INFO; a dict without [log_level] gives INFO. *)
Theorem get_log_level_is_a_level (config : json) :
  (forall level, get_log_level config = Valid level -> level ∈ log_levels) /\
  (forall entries,
     config = JDict entries -> entry "log_level" entries = None ->
     get_log_level config = Valid "INFO") /\
  (forall entries name,
     config = JDict entries ->
     entry "log_level" entries = Some (JStr name) ->
     get_log_level config =
       Valid (if bool_decide (upper name ∈ log_levels) then upper name
              else "INFO")).
Proof.
  split; [|split].
  - intros level. unfold get_log_level.
    destruct config as [| | | | | |entries]; try done.
    run_checked.
    destruct (str_method upper _) as [name|]; [|done].
    case_bool_decide as Hin; cbn [negb]; intros [= <-]; [done|].
    unfold log_levels. set_solver.
  - intros entries -> Hnone. unfold get_log_level. by rewrite Hnone.
  - intros entries name -> Hsome. unfold get_log_level. rewrite Hsome.
    run_checked. cbn. by case_bool_decide.
Qed.

(** X17. Of the sections a configuration dict lacks, [validate_config]
    names the first in the order check_interval, timeout, servers,
    webhook. *)
Theorem validate_config_names_first_missing (entries : list (string * json))
    (before after : list string) (section : string) :
  ["check_interval"; "timeout"; "servers"; "webhook"]
  = before ++ section :: after ->
  (forall s, s ∈ before -> is_Some (entry s entries)) ->
  entry section entries = None ->
  validate_config (JDict entries) = Invalid (MissingSection section).
Proof.
  intros Hsplit Hbefore Hmissing. unfold validate_config. rewrite Hsplit.
  assert (require_fields MissingSection (before ++ section :: after)
            (JDict entries) = Invalid (MissingSection section)) as ->; [|done].
  clear Hsplit. induction before as [|s before IH]; cbn [app require_fields].
  - run_checked. cbn [py_in]. by rewrite Hmissing.
  - run_checked. cbn [py_in].
    destruct (Hbefore s) as [v ->]; [apply list_elem_of_here|].
    cbn [negb]. apply IH. intros s' Hs'. apply Hbefore.
    by apply list_elem_of_further.
Qed.

(** ** Probes and outcomes *)

(** X18. A probe that reports reachable carries a latency, and a probe
    without a latency reports unreachable; a UDP probe that reports
    unreachable never carries a latency. *)
Theorem probes_latency (self : PortChecker) (net : network) (host : string)
    (port : Z) (reachable : bool) (latency : option Q) :
  (check_tcp_port self net host port = Ok (reachable, latency) ->
   (reachable = true -> latency = Some (tcp_elapsed (connect net host port)))
   /\ (latency = None -> reachable = false)) /\
  (check_udp_port self net host port = Ok (reachable, latency) ->
   (reachable = true ->
    latency = Some (udp_elapsed (datagram net host port))) /\
   (reachable = false <-> latency = None)).
Proof.
  unfold check_tcp_port, check_udp_port. cbn zeta.
  destruct (connect net host port) as [tsock conn telapsed].
  destruct (datagram net host port) as [usock send recv uelapsed]. cbn.
  split.
  - destruct tsock as [[]|]; cbn; try (intros [= <- <-]; by split); try done.
    destruct conn as [code|[]]; cbn; try done;
      intros [= <- <-]; by split.
  - destruct usock as [[]|]; cbn; try done;
      try (intros [= <- <-]; by repeat split).
    destruct send as [[]|]; cbn; try done;
      try (intros [= <- <-]; by repeat split).
    destruct recv as [[]|]; cbn; try done;
      intros [= <- <-]; by repeat split.
Qed.

(** X19. No socket error leaves a probe: what [check_tcp_port] or
    [check_udp_port] raises is never a [socket.error]. *)
Theorem probes_contain_socket_errors (self : PortChecker) (net : network)
    (host : string) (port : Z) (e : exn) :
  (check_tcp_port self net host port = Raise e -> is_socket_error e = false)
  /\
  (check_udp_port self net host port = Raise e -> is_socket_error e = false).
Proof.
  unfold check_tcp_port, check_udp_port. cbn zeta.
  destruct (connect net host port) as [tsock conn telapsed].
  destruct (datagram net host port) as [usock send recv uelapsed]. cbn.
  split.
  - destruct tsock as [[]|]; cbn; try done; try (by intros [= <-]).
    destruct conn as [code|[]]; cbn; try done; by intros [= <-].
  - destruct usock as [[]|]; cbn; try done; try (by intros [= <-]).
    destruct send as [[]|]; cbn; try done; try (by intros [= <-]).
    destruct recv as [[]|]; cbn; try done; by intros [= <-].
Qed.

(** X20. An outcome of [check_server] names the endpoint it was asked
    about and carries either a check time or an error, never both: the
    error, with not alive, no response time and no change, exactly when
    the protocol is neither tcp nor udp. An outcome that reports a change
    comes with an entry that was in memory before and differs from it. *)
Theorem check_server_outcome_shape (self : PortChecker) (net : network)
    (s : Server) (out : CheckResult) :
  (check_server self net s).2 = Ok out ->
  server out = s /\
  (is_Some (error out) <-> checked_at out = None) /\
  (is_Some (error out) <->
   lower (protocol s) <> "tcp" /\ lower (protocol s) <> "udp") /\
  (is_Some (error out) ->
   is_alive out = false /\ response_time out = None /\
   status_changed out = false) /\
  (status_changed out = true ->
   previous_states self !! server_key s = Some (negb (is_alive out))).
Proof.
  unfold check_server.
  destruct (probe self net s) as [[[reading latency] | e] |] eqn:Hprobe;
    [| done |].
  - cbn. intros [= <-]. cbn.
    assert (lower (protocol s) = "tcp" \/ lower (protocol s) = "udp")
      as Hproto.
    { unfold probe in Hprobe.
      destruct (String.eqb_spec (lower (protocol s)) "tcp"); [by left|].
      destruct (String.eqb_spec (lower (protocol s)) "udp"); [by right|].
      done. }
    split; [done|]. split.
    { split; [by intros [? ?] | done]. }
    split.
    { split; [by intros [? ?] | intros [? ?]; by destruct Hproto]. }
    split; [by intros [? ?]|].
    destruct (previous_states self !! server_key s) as [[]|];
      destruct reading; cbn; done.
  - cbn. intros [= <-]. cbn.
    unfold probe in Hprobe.
    destruct (String.eqb_spec (lower (protocol s)) "tcp"); [done|].
    destruct (String.eqb_spec (lower (protocol s)) "udp"); [done|].
    repeat split; try done; by eexists.
Qed.

(** ** Provider signatures *)

Lemma prefix_iff (a b : string) :
  String.prefix a b = true <-> exists t, b = a +:+ t.
Proof.
  revert b. induction a as [|x a IH]; intros [|y b]; cbn [String.prefix].
  - split; [by exists "" | done].
  - split; [by exists (String y b) | done].
  - split; [done | by intros [t Ht]].
  - destruct (ascii_dec x y) as [<- | Hne].
    + rewrite IH. split; intros [t Ht]; exists t.
      * by rewrite Ht.
      * by injection Ht.
    + split; [done|]. intros [t Ht]. by injection Ht.
Qed.

(** [contains] is the substring test. *)
Lemma contains_iff (needle haystack : string) :
  contains needle haystack = true <->
  exists before after, haystack = before +:+ needle +:+ after.
Proof.
  induction haystack as [|c rest IH]; cbn [contains].
  - destruct (String.prefix needle "") eqn:Hprefix.
    + split; [|done]. intros _. apply prefix_iff in Hprefix as [t Ht].
      by exists "", t.
    + split; [done|]. intros ([|x before] & after & Hsplit).
      * assert (String.prefix needle "" = true) as Hyes; [|congruence].
        apply prefix_iff. by exists after.
      * discriminate.
  - destruct (String.prefix needle (String c rest)) eqn:Hprefix.
    + split; [|done]. intros _. apply prefix_iff in Hprefix as [t Ht].
      by exists "", t.
    + rewrite IH. split.
      * intros (before & after & ->). by exists (String c before), after.
      * intros ([|x before] & after & Hsplit).
        -- assert (String.prefix needle (String c rest) = true) as Hyes;
             [|congruence].
           apply prefix_iff. by exists after.
        -- injection Hsplit as _ ->. by exists before, after.
Qed.

(** X21. The payload is the nested one of provider A as soon as
    feishu.cn or larksuite.com occurs anywhere in the URL, in the host
    name or after it, whatever else the URL contains (dingtalk.com as
    well). *)
Theorem provider_signature_anywhere (self : WebhookNotifier) (clk : wallclock)
    (check_result : CheckResult) (before after : string) :
  url self = before +:+ "feishu.cn" +:+ after \/
  url self = before +:+ "larksuite.com" +:+ after ->
  keys (format_port_status_message self clk check_result)
  = ["msg_type"; "content"] /\
  exists text,
    dict_get "content" (format_port_status_message self clk check_result)
    = Some (VDict [("text", VText text)]).
Proof.
  intros Hurl.
  assert (is_feishu (url self) = true) as Hfeishu.
  { unfold is_feishu. apply orb_true_iff.
    destruct Hurl as [Hurl | Hurl]; [left | right];
      apply contains_iff; by exists before, after. }
  unfold format_port_status_message. cbn zeta. rewrite Hfeishu.
  split; [done | by eexists].
Qed.

(** ** The further properties on concrete inputs *)

Import Samples.

Lemma server_key_inj_witness :
  (lower (protocol web) = "tcp" \/ lower (protocol web) = "udp") /\
  (lower (protocol web_alias) = "tcp" \/ lower (protocol web_alias) = "udp")
  /\
  (server_key web = server_key web_alias <->
   host web = host web_alias /\ port web = port web_alias /\
   lower (protocol web) = lower (protocol web_alias)).
Proof.
  split; [by left|]. split; [by left|].
  apply (server_key_inj web web_alias); by left.
Defined.

Lemma check_all_servers_keeps_entries_witness :
  is_Some (previous_states seen_up !! "10.0.0.1:80:tcp") /\
  is_Some (previous_states (check_all_servers seen_up stormy [dns; web]).1
             !! "10.0.0.1:80:tcp").
Proof.
  assert (is_Some (previous_states seen_up !! "10.0.0.1:80:tcp")) as Hkey.
  { by exists true. }
  split; [exact Hkey|].
  exact (check_all_servers_keeps_entries [dns; web] seen_up stormy
           "10.0.0.1:80:tcp" Hkey).
Defined.

Lemma check_all_servers_frame_witness :
  ("10.0.0.1:80:tcp" ∉ server_key <$> [dns]) /\
  previous_states (check_all_servers seen_up stormy [dns]).1
    !! "10.0.0.1:80:tcp"
  = previous_states seen_up !! "10.0.0.1:80:tcp".
Proof.
  assert ("10.0.0.1:80:tcp" ∉ server_key <$> [dns]) as Hkey.
  { intros Hin. apply list_elem_of_singleton in Hin. discriminate Hin. }
  split; [exact Hkey|].
  exact (check_all_servers_frame [dns] seen_up stormy "10.0.0.1:80:tcp" Hkey).
Defined.

Lemma two_endpoints_nodup : NoDup (server_key <$> [web; dns]).
Proof.
  apply NoDup_cons. split.
  - intros Hin. apply list_elem_of_singleton in Hin. discriminate Hin.
  - apply NoDup_singleton.
Defined.

Lemma check_all_servers_independent_witness :
  NoDup (server_key <$> [web; dns]) /\
  check_all_servers seen_up stormy [web; dns]
  = ((check_all_servers seen_up stormy [web; dns]).1,
     Ok (outcomes (check_all_servers seen_up stormy [web; dns]))) /\
  length (outcomes (check_all_servers seen_up stormy [web; dns]))
  = length [web; dns].
Proof.
  split; [exact two_endpoints_nodup|]. split; [reflexivity|].
  exact (proj1 (check_all_servers_independent [web; dns] seen_up _ stormy _
                  two_endpoints_nodup eq_refl)).
Defined.

Lemma first_cycle_reports_no_change_witness :
  NoDup (server_key <$> [web; dns]) /\
  check_all_servers (PortChecker_init 5) stormy [web; dns]
  = ((check_all_servers (PortChecker_init 5) stormy [web; dns]).1,
     Ok (outcomes (check_all_servers (PortChecker_init 5) stormy [web; dns])))
  /\
  forall out,
    out ∈ outcomes (check_all_servers (PortChecker_init 5) stormy [web; dns])
    -> status_changed out = false.
Proof.
  split; [exact two_endpoints_nodup|]. split; [reflexivity|].
  exact (first_cycle_reports_no_change [web; dns] 5 stormy _ _
           two_endpoints_nodup eq_refl).
Defined.

Lemma second_cycle_reports_differences_witness :
  let first := check_all_servers (PortChecker_init 5) calm [web; dns] in
  let second := check_all_servers first.1 stormy [web; dns] in
  NoDup (server_key <$> [web; dns]) /\
  first = (first.1, Ok (outcomes first)) /\
  second = (second.1, Ok (outcomes second)) /\
  forall i out1 out2,
    outcomes first !! i = Some out1 ->
    outcomes second !! i = Some out2 ->
    status_changed out2 = negb (Bool.eqb (is_alive out1) (is_alive out2)).
Proof.
  cbn zeta. split; [exact two_endpoints_nodup|].
  split; [reflexivity|]. split; [reflexivity|].
  exact (second_cycle_reports_differences [web; dns] (PortChecker_init 5)
           _ _ calm stormy _ _ two_endpoints_nodup eq_refl eq_refl).
Defined.

Lemma fault_keeps_earlier_updates_witness :
  NoDup (server_key <$> [web; dns]) /\
  [web; dns] !! 1%nat = Some dns /\
  probe_fault seen_up (fault_second 1%nat) dns
  = Some (OtherError "label empty or too long") /\
  (forall j s', (j < 1)%nat -> [web; dns] !! j = Some s' ->
                probe_fault seen_up (fault_second j) s' = None) /\
  run_check_task seen_up (WebhookNotifier_init generic_hook) fault_second
    third_time_lucky every_noon [web; dns] []
  = ((check_all_servers seen_up fault_second [web; dns]).1,
     Raise (OtherError "label empty or too long")).
Proof.
  assert (forall j s', (j < 1)%nat -> [web; dns] !! j = Some s' ->
                       probe_fault seen_up (fault_second j) s' = None)
    as Hbefore.
  { intros [|j] s' Hj; [|lia]. by intros [= <-]. }
  split; [exact two_endpoints_nodup|]. split; [reflexivity|].
  split; [reflexivity|]. split; [exact Hbefore|].
  exact (proj1 (fault_keeps_earlier_updates [web; dns] seen_up
                  (WebhookNotifier_init generic_hook) fault_second
                  third_time_lucky every_noon [] 1 dns _
                  two_endpoints_nodup eq_refl eq_refl Hbefore)).
Defined.

Lemma first_tick_is_silent_witness :
  NoDup (server_key <$> [web; dns]) /\
  check_all_servers (PortChecker_init 5) stormy [web; dns]
  = ((check_all_servers (PortChecker_init 5) stormy [web; dns]).1,
     Ok (outcomes (check_all_servers (PortChecker_init 5) stormy [web; dns])))
  /\
  run_check_task (PortChecker_init 5) (WebhookNotifier_init generic_hook)
    stormy third_time_lucky every_noon [web; dns] []
  = ((check_all_servers (PortChecker_init 5) stormy [web; dns]).1, Ok []).
Proof.
  split; [exact two_endpoints_nodup|]. split; [reflexivity|].
  exact (first_tick_is_silent [web; dns] 5 (WebhookNotifier_init generic_hook)
           stormy third_time_lucky every_noon [] _ _
           two_endpoints_nodup eq_refl).
Defined.

Lemma tick_attempts_bounded_witness :
  0 <= retry_count (WebhookNotifier_init generic_hook) /\
  check_all_servers seen_up stormy [web; dns]
  = ((check_all_servers seen_up stormy [web; dns]).1,
     Ok (outcomes (check_all_servers seen_up stormy [web; dns]))) /\
  exists segments : list (list event),
    run_check_task seen_up (WebhookNotifier_init generic_hook) stormy
      third_time_lucky every_noon [web; dns] []
    = ((check_all_servers seen_up stormy [web; dns]).1,
       Ok ([] ++ concat segments)) /\
    length segments
    = length (outcomes (check_all_servers seen_up stormy [web; dns])).
Proof.
  assert (0 <= retry_count (WebhookNotifier_init generic_hook)) as Hrc.
  { vm_compute. discriminate. }
  split; [exact Hrc|]. split; [reflexivity|].
  destruct (tick_attempts_bounded [web; dns] seen_up _
              (WebhookNotifier_init generic_hook) stormy third_time_lucky
              every_noon [] _ Hrc eq_refl) as (segments & Hrun & Hlen & _).
  by exists segments.
Defined.

Lemma validate_config_accepts_well_formed_witness :
  validate_config sample_config = Valid tt /\ well_formed sample_config.
Proof.
  split; [reflexivity|].
  apply (proj1 (validate_config_accepts_well_formed sample_config)).
  reflexivity.
Defined.

Lemma validated_servers_are_probed_witness :
  validate_config sample_config = Valid tt /\
  get_servers sample_config = Valid (JList [web_json]) /\
  web_json ∈ [web_json] /\
  server_of_json web_json = Some web /\
  1 <= port web <= 65535 /\
  is_Some (probe seen_up refusing web).
Proof.
  split; [reflexivity|]. split; [reflexivity|].
  split; [apply list_elem_of_here|]. split; [reflexivity|].
  destruct (validated_servers_are_probed sample_config [web_json] web_json
              web seen_up refusing eq_refl eq_refl
              (list_elem_of_here _ _) eq_refl) as (Hport & Hprobe & _).
  by split.
Defined.

Lemma get_log_level_is_a_level_witness :
  get_log_level sample_config = Valid "INFO" /\ "INFO" ∈ log_levels.
Proof.
  split; [reflexivity|].
  apply (proj1 (get_log_level_is_a_level sample_config) "INFO").
  reflexivity.
Defined.

Lemma validate_config_names_first_missing_witness :
  ["check_interval"; "timeout"; "servers"; "webhook"]
  = ["check_interval"] ++ "timeout" :: ["servers"; "webhook"] /\
  (forall s, s ∈ ["check_interval"] ->
             is_Some (entry s [("check_interval", JInt 60)])) /\
  entry "timeout" [("check_interval", JInt 60)] = None /\
  validate_config (JDict [("check_interval", JInt 60)])
  = Invalid (MissingSection "timeout").
Proof.
  assert (forall s, s ∈ ["check_interval"] ->
                    is_Some (entry s [("check_interval", JInt 60)])) as Hpre.
  { intros s Hs. apply list_elem_of_singleton in Hs as ->. by eexists. }
  split; [reflexivity|]. split; [exact Hpre|]. split; [reflexivity|].
  exact (validate_config_names_first_missing [("check_interval", JInt 60)]
           ["check_interval"] ["servers"; "webhook"] "timeout"
           eq_refl Hpre eq_refl).
Defined.

Lemma probes_latency_witness :
  check_udp_port seen_up refusing "10.0.0.2" 53 = Ok (true, Some (5 # 1)%Q) /\
  (true = true ->
   Some (5 # 1)%Q = Some (udp_elapsed (datagram refusing "10.0.0.2" 53))).
Proof.
  split; [reflexivity|].
  exact (proj1 (proj2 (probes_latency seen_up refusing "10.0.0.2" 53 true
                         (Some (5 # 1)%Q)) eq_refl)).
Defined.

Lemma probes_contain_socket_errors_witness :
  check_tcp_port seen_up faulty "10.0.0.1" 80
  = Raise (OtherError "label empty or too long") /\
  is_socket_error (OtherError "label empty or too long") = false.
Proof.
  split; [reflexivity|].
  exact (proj1 (probes_contain_socket_errors seen_up faulty "10.0.0.1" 80
                  (OtherError "label empty or too long")) eq_refl).
Defined.

Lemma check_server_outcome_shape_witness :
  (check_server seen_up refusing web).2 = Ok web_down /\
  server web_down = web /\
  (status_changed web_down = true ->
   previous_states seen_up !! server_key web
   = Some (negb (is_alive web_down))).
Proof.
  split; [reflexivity|].
  destruct (check_server_outcome_shape seen_up refusing web web_down eq_refl)
    as (Hserver & _ & _ & _ & Hchanged).
  by split.
Defined.

Lemma provider_signature_anywhere_witness :
  (url (WebhookNotifier_init feishu_hook)
   = "https://open." +:+ "feishu.cn" +:+ "/open-apis/bot/v2/hook/abc" \/
   url (WebhookNotifier_init feishu_hook)
   = "https://open." +:+ "larksuite.com" +:+ "/open-apis/bot/v2/hook/abc") /\
  keys (format_port_status_message (WebhookNotifier_init feishu_hook) noon
          web_down)
  = ["msg_type"; "content"].
Proof.
  split; [by left|].
  apply (provider_signature_anywhere (WebhookNotifier_init feishu_hook) noon
           web_down "https://open." "/open-apis/bot/v2/hook/abc").
  by left.
Defined.
